(** * SupplyLink backend: the shared-order ledger

    A shallow embedding of [src/main.py] (the endpoints
    [list_shared_orders] and [pledge_to_shared_order]) and of the
    [SharedOrder] schema of [src/schemas.py], with the properties of the
    pledge workflow proved about it.

    Layout:
    - [value], [document]: BSON / Python values and dictionaries;
    - [Store]: the document store as the handlers use it ([find_one],
      [update_one] with [$inc] and [$push]);
    - [Section Ledger]: the two handlers, parameterised by the pieces of
      the Python environment the handlers call but do not define, then
      sequences of requests and two handlers interleaved step by step;
    - [Demo]: a concrete environment and the orders [ensure_demo_data]
      seeds;
    - the proofs, from the facts about dictionaries up to the properties
      of the ledger.

    Modelling choices that are not visible in the code:
    - integers are Python's unbounded integers ([Z]); the 64-bit range of
      the store's integer encoding is outside the model;
    - every store call is one indivisible step and does not fail for
      reasons of its own (network, time-outs); the only unavailable store
      is the one that was never configured ([db is None]). *)

From stdpp Require Import base option list gmap strings.
From Stdlib Require Import ZArith Lia Permutation Ascii.

Open Scope Z_scope.

(** ** Values and dictionaries *)

(** A BSON value as the handlers see it after decoding. An embedded
    document keeps the order of its fields, and the store compares embedded
    documents field by field in that order, so a dictionary is an
    association list. Floating-point numbers do not occur in a shared order
    and are left out. *)
Unset Elimination Schemes.
Inductive value : Type :=
| VNone
| VBool (b : bool)
| VInt (n : Z)
| VStr (s : string)
| VOid (hex : string)
| VDate (t : Z)
| VList (l : list value)
| VDict (d : list (string * value)).
Set Elimination Schemes.

Abbreviation document := (list (string * value)).

(** Equality of values, as the store tests it when it matches a filter. *)
Fixpoint value_eqb (a b : value) {struct a} : bool :=
  match a, b with
  | VNone, VNone => true
  | VBool x, VBool y => Bool.eqb x y
  | VInt x, VInt y => Z.eqb x y
  | VStr x, VStr y => String.eqb x y
  | VOid x, VOid y => String.eqb x y
  | VDate x, VDate y => Z.eqb x y
  | VList l, VList l' =>
      (fix go (l l' : list value) {struct l} : bool :=
         match l, l' with
         | [], [] => true
         | x :: l, y :: l' => value_eqb x y && go l l'
         | _, _ => false
         end) l l'
  | VDict d, VDict d' =>
      (fix go (d d' : document) {struct d} : bool :=
         match d, d' with
         | [], [] => true
         | (k, x) :: d, (k', y) :: d' =>
             String.eqb k k' && value_eqb x y && go d d'
         | _, _ => false
         end) d d'
  | _, _ => false
  end.

(** [d.get(k)]: the first binding of [k]. *)
Fixpoint dict_get (k : string) (d : document) : option value :=
  match d with
  | [] => None
  | (k', v) :: d' => if String.eqb k' k then Some v else dict_get k d'
  end.

(** [d[k] = v]: overwrite the binding of [k] in place, or add it at the end. *)
Fixpoint dict_set (k : string) (v : value) (d : document) : document :=
  match d with
  | [] => [(k, v)]
  | (k', v') :: d' =>
      if String.eqb k' k then (k, v) :: d' else (k', v') :: dict_set k v d'
  end.

(** [del d[k]], silent when [k] is absent. *)
Fixpoint dict_del (k : string) (d : document) : document :=
  match d with
  | [] => []
  | (k', v') :: d' =>
      if String.eqb k' k then dict_del k d' else (k', v') :: dict_del k d'
  end.

(** [d.pop(k, default)]: the value removed (or the default) and what is
    left of [d]. *)
Definition dict_pop (k : string) (dflt : value) (d : document)
  : value * document :=
  (default dflt (dict_get k d), dict_del k d).

(** The keys of a dictionary, in order. *)
Definition dict_keys (d : document) : list string := map fst d.

(** Python truthiness of what [find_one] returns: [None] and the empty
    dictionary are false. *)
Definition truthy (doc : option document) : bool :=
  match doc with
  | None | Some [] => false
  | Some (_ :: _) => true
  end.

(** ** Exceptions and results *)

(** What a handler can raise. [HTTPException] and the validation error
    are FastAPI's; any other Python exception is kept by its class name and
    reaches the client as an internal server error. *)
Inductive exn : Type :=
| HTTPException (status_code : Z) (detail : string)
| RequestValidationError
| PyError (cls : string).

Inductive result (A : Type) : Type :=
| Return (a : A)
| Raise (e : exn).
Arguments Return {A} a.
Arguments Raise {A} e.

(** The HTTP status FastAPI answers with. *)
Definition status_of {A} (r : result A) : Z :=
  match r with
  | Return _ => 200
  | Raise (HTTPException c _) => c
  | Raise RequestValidationError => 422
  | Raise (PyError _) => 500
  end.

(** ** The document store *)

Module Store.

(** A database: its collections by name, each the list of its documents
    in natural order. A collection never written to is empty. *)
Abbreviation database := (gmap string (list document)).

Definition coll (db : database) (name : string) : list document :=
  default [] (db !! name).

(** A filter made of equality conditions, such as [{"_id": x}]: every
    field of the filter is present in the document with an equal value.
    The empty filter matches every document. *)
Definition matches (flt d : document) : bool :=
  forallb
    (fun kv => match dict_get (fst kv) d with
               | Some v' => value_eqb v' (snd kv)
               | None => false
               end) flt.

Definition find (c : list document) (flt : document) : list document :=
  List.filter (matches flt) c.

Fixpoint find_one (c : list document) (flt : document) : option document :=
  match c with
  | [] => None
  | d :: c' => if matches flt d then Some d else find_one c' flt
  end.

(** The update operators the ledger uses:
    [{"$inc": {k: n, ...}, "$push": {k: v, ...}}]. *)
Record update : Type := { inc : list (string * Z); push : list (string * value) }.

(** [$inc]: adds to an integer field, creates an absent one, and is
    refused on any other value. *)
Definition apply_inc (k : string) (n : Z) (d : document) : option document :=
  match dict_get k d with
  | None => Some (dict_set k (VInt n) d)
  | Some (VInt m) => Some (dict_set k (VInt (m + n)) d)
  | Some _ => None
  end.

(** [$push]: appends to an array field, creates an absent one, and is
    refused on any other value. *)
Definition apply_push (k : string) (v : value) (d : document) : option document :=
  match dict_get k d with
  | None => Some (dict_set k (VList [v]) d)
  | Some (VList l) => Some (dict_set k (VList (l ++ [v])) d)
  | Some _ => None
  end.

Fixpoint apply_incs (l : list (string * Z)) (d : document) : option document :=
  match l with
  | [] => Some d
  | (k, n) :: l' => d' ← apply_inc k n d; apply_incs l' d'
  end.

Fixpoint apply_pushes (l : list (string * value)) (d : document) : option document :=
  match l with
  | [] => Some d
  | (k, v) :: l' => d' ← apply_push k v d; apply_pushes l' d'
  end.

(** One update applies all its operators to the document or none. *)
Definition apply_update (u : update) (d : document) : option document :=
  d' ← apply_incs (inc u) d; apply_pushes (push u) d'.

(** [update_one] on a collection: the first matching document is
    replaced by its update; [None] when the update is refused (the
    collection is then left as it was). *)
Fixpoint update_one (c : list document) (flt : document) (u : update)
  : option (list document) :=
  match c with
  | [] => Some []
  | d :: c' =>
      if matches flt d then d' ← apply_update u d; Some (d' :: c')
      else c'' ← update_one c' flt u; Some (d :: c'')
  end.

(** The position of the first matching document. *)
Fixpoint find_index (c : list document) (flt : document) : option nat :=
  match c with
  | [] => None
  | d :: c' => if matches flt d then Some 0%nat else S <$> find_index c' flt
  end.

End Store.
Import Store.

(** ** Handlers as store computations *)

(** A computation reads and writes the database and returns or raises. *)
Definition M (A : Type) : Type := database -> result A * database.

Definition ret {A} (a : A) : M A := fun db => (Return a, db).
Definition raise {A} (e : exn) : M A := fun db => (Raise e, db).
Definition lift {A} (r : result A) : M A := fun db => (r, db).
Definition bind {A B} (m : M A) (k : A -> M B) : M B :=
  fun db =>
    match m db with
    | (Return a, db') => k a db'
    | (Raise e, db') => (Raise e, db')
    end.

(** [try: m except Exception: h] *)
Definition try_except {A} (m : M A) (h : exn -> M A) : M A :=
  fun db =>
    match m db with
    | (Return a, db') => (Return a, db')
    | (Raise e, db') => h e db'
    end.

Notation "'do' x <- m ; k" := (bind m (fun x => k))
  (at level 10, x name, m at level 100, k at level 200,
   format "'[v' 'do'  x  <-  m ; '/' k ']'").
Notation "'do_' m ; k" := (bind m (fun _ => k))
  (at level 10, m at level 100, k at level 200,
   format "'[v' 'do_'  m ; '/' k ']'").

(** [db[name].find_one(flt)] *)
Definition db_find_one (name : string) (flt : document) : M (option document) :=
  fun db => (Return (find_one (coll db name) flt), db).

(** [db[name].update_one(flt, u)]: one store request; a refused update
    raises [WriteError] and writes nothing. Integers are unbounded here:
    the driver's refusal to encode an integer beyond 64 bits is not part
    of the model. *)
Definition db_update_one (name : string) (flt : document) (u : update) : M unit :=
  fun db =>
    match find_one (coll db name) flt with
    | None => (Return tt, db)
    | Some _ =>
        match update_one (coll db name) flt u with
        | Some c' => (Return tt, <[name := c']> db)
        | None => (Raise (PyError "WriteError"), db)
        end
    end.

(** [d[k]] *)
Definition getitem (d : document) (k : string) : result value :=
  match dict_get k d with
  | Some v => Return v
  | None => Raise (PyError "KeyError")
  end.

(** Modelled from the spec: [get_documents] of the [database] module, which
    is not part of the sources at hand. The spec gives the store's read as
    [find(collection, filter) -> list of documents] and has an unavailable
    store surface as an error to the caller. *)
Definition get_documents (db : option database) (collection_name : string)
    (filter_dict : document) : result (list document) :=
  match db with
  | None => Raise (PyError "Exception")
  | Some s => Return (find (coll s collection_name) filter_dict)
  end.

(** ** The ledger's handlers *)

Section Ledger.

(** The pieces of the Python environment the handlers call:
    - [objectid_class]: the conversion of the path parameter on line 225,
      [db["sharedorder"].database.client.get_default_database()
      .codec_options.document_class.objectid_class]; what it is depends
      on how the driver was configured, and like any call it may raise;
    - [ObjectId]: the constructor of [bson.ObjectId], which raises on a
      string that is not an identifier;
    - [str]: Python's [str]. *)
Variable objectid_class : string -> result value.
Variable ObjectId : string -> result value.
Variable str : value -> string.

(** [it["id"] = str(it.pop("_id", ""))] *)
Definition expose_id (it : document) : document :=
  let '(v, it') := dict_pop "_id" (VStr "") it in
  dict_set "id" (VStr (str v)) it'.

(** [GET /api/shared-orders] *)
Definition list_shared_orders (db : option database)
  : result value * option database :=
  match get_documents db "sharedorder" [] with
  | Raise e => (Raise e, db)
  | Return items =>
      (Return (VDict [("items", VList ((fun it => VDict (expose_id it)) <$> items))]),
       db)
  end.

(** The participant record pushed by a pledge:
    [{"name": name, "email": email, "qty": qty}]. *)
Definition participant (name : string) (email : option string) (qty : Z) : value :=
  VDict [("name", VStr name);
         ("email", match email with Some e => VStr e | None => VNone end);
         ("qty", VInt qty)].

(** The update document of line 235:
    [{"$inc": {"pledged_qty": qty}, "$push": {"participants": {...}}}]. *)
Definition pledge_update (qty : Z) (name : string) (email : option string)
  : update :=
  {| inc := [("pledged_qty", qty)];
     push := [("participants", participant name email qty)] |}.

(** Line 225: the first look-up, by the converted path parameter. *)
Definition primary_lookup (order_id : string) : M (option document) :=
  do oid <- lift (objectid_class order_id);
  db_find_one "sharedorder" [("_id", oid)].

(** Lines 228 to 232: the fallback, whose failures count as not found. *)
Definition fallback_lookup (order_id : string) : M (option document) :=
  try_except
    (do oid' <- lift (ObjectId order_id);
     db_find_one "sharedorder" [("_id", oid')])
    (fun _ => ret None).

(** Lines 225 to 232: the look-up of the order. *)
Definition lookup_order (order_id : string) : M (option document) :=
  do doc <- primary_lookup order_id;
  if truthy doc then ret doc else fallback_lookup order_id.

(** [orderId] resolves to the stored order [doc]: the look-up of lines
    225 to 232 returns it. *)
Definition resolves (s : database) (order_id : string) (doc : document) : Prop :=
  fst (lookup_order order_id s) = Return (Some doc).

(** Line 235: the increment and the append, in one update request. *)
Definition record_pledge (doc : document) (qty : Z) (name : string)
    (email : option string) : M unit :=
  do id <- lift (getitem doc "_id");
  db_update_one "sharedorder" [("_id", id)] (pledge_update qty name email).

(** Lines 236 to 238: the order read back and given its external [id]. *)
Definition read_back (doc : document) : M document :=
  do id <- lift (getitem doc "_id");
  do updated <- db_find_one "sharedorder" [("_id", id)];
  match updated with
  | None => raise (PyError "AttributeError")
  | Some updated => ret (expose_id updated)
  end.

(** Lines 235 to 238, for the document found. *)
Definition apply_pledge (doc : document) (qty : Z) (name : string)
    (email : option string) : M document :=
  do_ record_pledge doc qty name email;
  read_back doc.

(** The body of [pledge_to_shared_order] once the database is there. *)
Definition pledge_body (order_id : string) (qty : Z) (name : string)
    (email : option string) : M document :=
  do doc <- lookup_order order_id;
  match doc with
  | Some ((_ :: _) as doc) => apply_pledge doc qty name email
  | _ => raise (HTTPException 404 "Shared order not found")
  end.

(** [pledge_to_shared_order], called with arguments of its declared
    types. The global [db] is [None] when no database was configured. *)
Definition pledge_to_shared_order (db : option database) (order_id : string)
    (qty : Z) (name : string) (email : option string)
  : result document * option database :=
  match db with
  | None => (Raise (HTTPException 500 "Database not available"), None)
  | Some s =>
      let '(r, s') := pledge_body order_id qty name email s in (r, Some s')
  end.

(** The query string of [POST /api/shared-orders/{order_id}/pledge],
    with [qty] already read as an integer when it is one. *)
Record pledge_query : Type :=
  { q_qty : option Z; q_name : option string; q_email : option string }.

(** The route: [qty: int = Query(..., ge=1)] is required and at least 1,
    [name: str = Query("Guest")], [email: Optional[str] = Query(None)];
    a request that fails validation never reaches the function. *)
Definition post_pledge (db : option database) (order_id : string)
    (q : pledge_query) : result document * option database :=
  match q_qty q with
  | None => (Raise RequestValidationError, db)
  | Some qty =>
      if qty <? 1 then (Raise RequestValidationError, db)
      else pledge_to_shared_order db order_id qty
             (default "Guest" (q_name q)) (q_email q)
  end.

(** *** Sequences of pledge requests *)

Record call : Type := { c_order_id : string; c_query : pledge_query }.

(** The requests served one after the other. *)
Fixpoint run_pledges (db : option database) (calls : list call)
  : list (result document) * option database :=
  match calls with
  | [] => ([], db)
  | c :: cs =>
      let '(r, db') := post_pledge db (c_order_id c) (c_query c) in
      let '(rs, db'') := run_pledges db' cs in
      (r :: rs, db'')
  end.

(** The request [c], served on [db], is for the order stored under [id]. *)
Definition pledges_on (id : value) (db : option database) (c : call) : bool :=
  match db with
  | None => false
  | Some s =>
      match fst (lookup_order (c_order_id c) s) with
      | Return (Some doc) =>
          match dict_get "_id" doc with
          | Some v => value_eqb v id
          | None => false
          end
      | _ => false
      end
  end.

Definition is_return {A} (r : result A) : bool :=
  match r with Return _ => true | Raise _ => false end.

(** How many of the requests were successful pledges on the order [id]. *)
Fixpoint successful_pledges (id : value) (db : option database)
    (calls : list call) : nat :=
  match calls with
  | [] => 0%nat
  | c :: cs =>
      let '(r, db') := post_pledge db (c_order_id c) (c_query c) in
      ((if pledges_on id db c && is_return r then 1 else 0)
       + successful_pledges id db' cs)%nat
  end.

(** *** Two handlers on one store *)

(** FastAPI serves requests concurrently; what the handlers share is the
    store. A handler is cut at its store requests: each step below issues
    at most one of them, and steps of different handlers interleave. *)
Record request : Type :=
  { r_order_id : string; r_qty : Z; r_name : string; r_email : option string }.

(** Where a handler stands: before line 225, before the fallback of line
    230, before the update of line 235, before the read of line 236, or
    finished with its response. *)
Inductive pc : Type :=
| AtLookup
| AtFallback
| AtUpdate (doc : document)
| AtReread (doc : document)
| Done (x : result document).

(** [if not doc] after a look-up. *)
Definition after_lookup (doc : option document) (otherwise : pc) : pc :=
  match doc with
  | Some ((_ :: _) as d) => AtUpdate d
  | _ => otherwise
  end.

Definition handler_step (r : request) (p : pc) (s : database) : pc * database :=
  match p with
  | AtLookup =>
      match primary_lookup (r_order_id r) s with
      | (Return doc, s') => (after_lookup doc AtFallback, s')
      | (Raise e, s') => (Done (Raise e), s')
      end
  | AtFallback =>
      match fallback_lookup (r_order_id r) s with
      | (Return doc, s') =>
          (after_lookup doc
             (Done (Raise (HTTPException 404 "Shared order not found"))), s')
      | (Raise e, s') => (Done (Raise e), s')
      end
  | AtUpdate doc =>
      match record_pledge doc (r_qty r) (r_name r) (r_email r) s with
      | (Return _, s') => (AtReread doc, s')
      | (Raise e, s') => (Done (Raise e), s')
      end
  | AtReread doc => let '(x, s') := read_back doc s in (Done x, s')
  | Done x => (Done x, s)
  end.

(** A handler running alone for [n] steps. *)
Fixpoint handler_steps (r : request) (n : nat) (p : pc) (s : database)
  : pc * database :=
  match n with
  | O => (p, s)
  | S n' => let '(p', s') := handler_step r p s in handler_steps r n' p' s'
  end.

(** Two handlers and the store they share. *)
Record config : Type := { store : database; pc1 : pc; pc2 : pc }.

(** One step of the first handler ([true]) or of the second ([false]). *)
Definition sched_step (r1 r2 : request) (first : bool) (c : config) : config :=
  if first then
    let '(p, s) := handler_step r1 (pc1 c) (store c) in
    {| store := s; pc1 := p; pc2 := pc2 c |}
  else
    let '(p, s) := handler_step r2 (pc2 c) (store c) in
    {| store := s; pc1 := pc1 c; pc2 := p |}.

(** A schedule says whose turn it is, step after step. *)
Fixpoint run_sched (r1 r2 : request) (sched : list bool) (c : config) : config :=
  match sched with
  | [] => c
  | b :: sched' => run_sched r1 r2 sched' (sched_step r1 r2 b c)
  end.

(** How many turns a schedule gives to a handler. *)
Fixpoint turns (b : bool) (sched : list bool) : nat :=
  match sched with
  | [] => 0%nat
  | b' :: sched' => ((if Bool.eqb b b' then 1 else 0) + turns b sched')%nat
  end.

End Ledger.

(** ** The SharedOrder schema and the ledger invariant *)

(** A stored document that validates against [SharedOrder] of
    [schemas.py]: the six fields with their types and bounds. *)
Definition is_SharedOrder (d : document) : bool :=
  match dict_get "product_id" d, dict_get "supplier_id" d, dict_get "min_qty" d,
        dict_get "pledged_qty" d, dict_get "deadline" d, dict_get "participants" d with
  | Some (VStr _), Some (VStr _), Some (VInt m), Some (VInt p), Some (VDate _),
    Some (VList ps) =>
      (1 <=? m) && (0 <=? p)
      && forallb (fun x => match x with VDict _ => true | _ => false end) ps
  | _, _, _, _, _, _ => false
  end.

(** The integer a [$inc] on field [k] starts from, and the array a [$push]
    on [k] extends; [None] when the field holds something else. *)
Definition int_field (k : string) (d : document) : option Z :=
  match dict_get k d with
  | None => Some 0
  | Some (VInt m) => Some m
  | Some _ => None
  end.

Definition list_field (k : string) (d : document) : option (list value) :=
  match dict_get k d with
  | None => Some []
  | Some (VList l) => Some l
  | Some _ => None
  end.

(** [p["qty"]] of a participant record, when it is an integer. *)
Definition qty_of (p : value) : option Z :=
  match p with
  | VDict d => match dict_get "qty" d with Some (VInt q) => Some q | _ => None end
  | _ => None
  end.

(** [sum(p["qty"] for p in participants)] *)
Fixpoint sum_qty (ps : list value) : option Z :=
  match ps with
  | [] => Some 0
  | p :: ps' => q ← qty_of p; t ← sum_qty ps'; Some (q + t)
  end.

(** The invariant of the data model:
    [pledged_qty == sum(p.qty for p in participants)]. *)
Definition consistent (d : document) : Prop :=
  exists p ps,
    dict_get "pledged_qty" d = Some (VInt p)
    /\ dict_get "participants" d = Some (VList ps)
    /\ sum_qty ps = Some p.

(** The order document once a pledge of [qty] by [name] is recorded on a
    document that had [p] pledged and the participants [ps]. *)
Definition pledged_doc (doc : document) (p : Z) (ps : list value) (qty : Z)
    (name : string) (email : option string) : document :=
  dict_set "participants" (VList (ps ++ [participant name email qty]))
    (dict_set "pledged_qty" (VInt (p + qty)) doc).

(** ** Two handlers at once: what holds between their steps *)

(** The identifiers of a collection, document by document. *)
Definition ids (c : list document) : list (option value) := dict_get "_id" <$> c.

(** A handler past its update. *)
Definition updated (p : pc) : bool :=
  match p with
  | AtReread _ | Done _ => true
  | _ => false
  end.

(** The steps a handler has left, at most. *)
Definition rank (p : pc) : nat :=
  match p with
  | AtLookup => 4
  | AtFallback => 3
  | AtUpdate _ => 2
  | AtReread _ => 1
  | Done _ => 0
  end.

(** The record a request appends. *)
Definition entry (r : request) : value :=
  participant (r_name r) (r_email r) (r_qty r).

(** The order stored under [id] is at position [i] of the collection, as
    [d], and the collection has the identifiers it had in [s0]. *)
Definition order_in (s0 : database) (id : value) (s : database) (i : nat)
    (d : document) : Prop :=
  find_index (coll s "sharedorder") [("_id", id)] = Some i
  /\ coll s "sharedorder" !! i = Some d
  /\ ids (coll s "sharedorder") = ids (coll s0 "sharedorder").

(** What a handler for the order stored under [id] knows at each point. *)
Definition thread_ok (ObjectId : string -> result value) (id : value)
    (r : request) (p : pc) : Prop :=
  match p with
  | AtLookup => True
  | AtFallback => ObjectId (r_order_id r) = Return id
  | AtUpdate d | AtReread d => dict_get "_id" d = Some id
  | Done x => is_return x = true
  end.

(** The invariant of two handlers [r1] and [r2] for the order stored under
    [id], which started with [p] pledged and the participants [ps]: the
    order records exactly the pledges of the handlers that are past their
    update, the increment and the record of each together. *)
Definition Inv (ObjectId : string -> result value) (s0 : database) (id : value)
    (r1 r2 : request) (p : Z) (ps : list value) (c : config) : Prop :=
  exists i d l,
    order_in s0 id (store c) i d
    /\ dict_get "pledged_qty" d
       = Some (VInt (p + (if updated (pc1 c) then r_qty r1 else 0)
                       + (if updated (pc2 c) then r_qty r2 else 0)))
    /\ dict_get "participants" d = Some (VList (ps ++ l))
    /\ l ≡ₚ (if updated (pc1 c) then [entry r1] else [])
            ++ (if updated (pc2 c) then [entry r2] else [])
    /\ thread_ok ObjectId id r1 (pc1 c)
    /\ thread_ok ObjectId id r2 (pc2 c).

(** ** The other listings *)

Section Listings.

Variable str : value -> string.

(** [get_documents] of the [database] module, taken as it comes: a call
    with a collection name and a filter that returns documents or raises,
    whatever it does to the store. The listings below hand it filters with
    a [$regex] operator, which only the store can interpret. *)
Variable get_documents' :
  string -> document -> option database -> result (list document) * option database.

(** [if q:] on an optional query parameter: absent and empty are false. *)
Definition given (q : option string) : bool :=
  match q with
  | Some (String _ _) => true
  | _ => false
  end.

(** [{"$regex": q, "$options": "i"}] *)
Definition regex_i (q : string) : value :=
  VDict [("$regex", VStr q); ("$options", VStr "i")].

(** [for it in items: it["id"] = str(it.pop("_id", ""))] and the response
    [{"items": items}]. *)
Definition items_response (items : list document) : value :=
  VDict [("items", VList ((fun it => VDict (expose_id str it)) <$> items))].

(** Lines 183 to 187: the filter of [list_suppliers]. *)
Definition suppliers_filter (q tag : option string) : document :=
  let f1 := match q with
            | Some ((String _ _) as q') => dict_set "name" (regex_i q') []
            | _ => []
            end in
  match tag with
  | Some ((String _ _) as tag') => dict_set "tags" (VStr tag') f1
  | _ => f1
  end.

(** [GET /api/suppliers] *)
Definition list_suppliers (q tag : option string) (db : option database)
  : result value * option database :=
  match get_documents' "supplier" (suppliers_filter q tag) db with
  | (Return items, db') => (Return (items_response items), db')
  | (Raise e, db') => (Raise e, db')
  end.

(** Lines 195 to 201: the filter of [list_products]. *)
Definition products_filter (q category supplier : option string) : document :=
  let f1 := match q with
            | Some ((String _ _) as q') => dict_set "title" (regex_i q') []
            | _ => []
            end in
  let f2 := match category with
            | Some ((String _ _) as c) => dict_set "category" (VStr c) f1
            | _ => f1
            end in
  match supplier with
  | Some ((String _ _) as s) => dict_set "supplier_id" (VStr s) f2
  | _ => f2
  end.

(** [GET /api/products] *)
Definition list_products (q category supplier : option string)
    (db : option database) : result value * option database :=
  match get_documents' "product" (products_filter q category supplier) db with
  | (Return items, db') => (Return (items_response items), db')
  | (Raise e, db') => (Raise e, db')
  end.

(** [GET /api/supplier/{supplier_id}/products] *)
Definition products_by_supplier (supplier_id : string) (db : option database)
  : result value * option database :=
  match get_documents' "product" [("supplier_id", VStr supplier_id)] db with
  | (Return items, db') => (Return (items_response items), db')
  | (Raise e, db') => (Raise e, db')
  end.

End Listings.

(** [get_documents] as modelled from the spec, in the shape the listings
    take it: a read that leaves the store alone. *)
Definition get_documents_read (collection_name : string) (filter_dict : document)
    (db : option database) : result (list document) * option database :=
  (get_documents db collection_name filter_dict, db).

(** A query parameter with the empty string read as absent. *)
Definition blank_as_absent (q : option string) : option string :=
  match q with
  | Some (String a r) => Some (String a r)
  | _ => None
  end.

(** ** Seeding the shared orders *)

(** [l[i]] on a list. *)
Definition list_getitem {A} (l : list A) (i : nat) : result A :=
  match l !! i with
  | Some x => Return x
  | None => Raise (PyError "IndexError")
  end.

(** Sequencing of expressions that may raise. *)
Definition rbind {A B} (r : result A) (k : A -> result B) : result B :=
  match r with
  | Return a => k a
  | Raise e => Raise e
  end.

Section Seeding.

Variable str : value -> string.

(** [create_document] of the [database] module, taken as it comes: it may
    write to the store and it may raise. *)
Variable create_document : string -> document -> M string.

(** Lines 140 to 163 of [ensure_demo_data]: the two shared orders built
    from the first two product documents, [now] being [datetime.utcnow()]
    in seconds. The expressions are evaluated in the order of the source. *)
Definition demo_shared_orders (prod_docs : list document) (now : Z)
  : result (list document) :=
  rbind (list_getitem prod_docs 0) (fun p0 =>
  rbind (getitem p0 "_id") (fun id0 =>
  rbind (getitem p0 "supplier_id") (fun sup0 =>
  rbind (getitem p0 "min_order_qty") (fun moq0 =>
  rbind (list_getitem prod_docs 1) (fun p1 =>
  rbind (getitem p1 "_id") (fun id1 =>
  rbind (getitem p1 "supplier_id") (fun sup1 =>
  rbind (getitem p1 "min_order_qty") (fun moq1 =>
  Return
    [ [("product_id", VStr (str id0));
       ("supplier_id", sup0);
       ("min_qty", moq0);
       ("pledged_qty", VInt 140);
       ("deadline", VDate (now + (6 * 86400 + 5 * 3600)));
       ("participants",
         VList [VDict [("name", VStr "Atlas Retail");
                       ("email", VStr "atlas@example.com"); ("qty", VInt 100)];
                VDict [("name", VStr "Local Boutique");
                       ("email", VStr "boutique@example.com"); ("qty", VInt 40)]])];
      [("product_id", VStr (str id1));
       ("supplier_id", sup1);
       ("min_qty", moq1);
       ("pledged_qty", VInt 460);
       ("deadline", VDate (now + (2 * 86400 + 12 * 3600)));
       ("participants",
         VList [VDict [("name", VStr "Gym Chain");
                       ("email", VStr "gym@example.com"); ("qty", VInt 300)];
                VDict [("name", VStr "Boutique");
                       ("email", VStr "fashion@example.com"); ("qty", VInt 160)]])]
    ])))))))).

(** [for so in shared_orders: create_document("sharedorder", so)] *)
Fixpoint create_all (orders : list document) : M unit :=
  match orders with
  | [] => ret tt
  | so :: rest => do_ create_document "sharedorder" so; create_all rest
  end.

(** Lines 137 to 168 of [ensure_demo_data], from the point where the
    products are in place: the shared orders are seeded when there is none
    yet, and whatever goes wrong is swallowed by the [except] of line
    166. *)
Definition seed_shared_orders (now : Z) : M unit :=
  try_except
    (fun s =>
       if (length (find (coll s "sharedorder") []) =? 0)%nat then
         (do orders <- lift (demo_shared_orders
                               (take 3 (find (coll s "product") [])) now);
          create_all orders) s
       else (Return tt, s))
    (fun _ => ret tt).

End Seeding.

(** ** What a sequence of requests appends *)

Section Appended.

Variable objectid_class : string -> result value.
Variable ObjectId : string -> result value.
Variable str : value -> string.

(** The participant records the successful pledges on the order [id]
    append, in the order of the requests. *)
Fixpoint pledged_entries (id : value) (db : option database)
    (calls : list call) : list value :=
  match calls with
  | [] => []
  | c :: cs =>
      let '(r, db') := post_pledge objectid_class ObjectId str db
                         (c_order_id c) (c_query c) in
      (if pledges_on objectid_class ObjectId id db c && is_return r
       then [participant (default "Guest" (q_name (c_query c)))
               (q_email (c_query c)) (default 0 (q_qty (c_query c)))]
       else [])
      ++ pledged_entries id db' cs
  end.

End Appended.

(** An order that validates against the schema and keeps the invariant of
    the data model. *)
Definition sound_order (d : document) : Prop :=
  is_SharedOrder d = true /\ consistent d.

(** How the code creates a shared order: with the defaults of the schema
    ([pledged_qty = 0], no participant), or as one of the orders
    [ensure_demo_data] builds, which come with two participants, under the
    [_id] the store gives it. [n] is the number of participants at
    creation. *)
Definition created_with (str : value -> string) (d0 : document) (n : nat) : Prop :=
  (dict_get "pledged_qty" d0 = Some (VInt 0)
   /\ dict_get "participants" d0 = Some (VList [])
   /\ n = 0%nat)
  \/ (exists prod_docs now orders o,
        demo_shared_orders str prod_docs now = Return orders
        /\ o ∈ orders
        /\ (forall k, k <> "_id" -> dict_get k d0 = dict_get k o)
        /\ n = 2%nat).

(** ** A concrete environment and the demo data *)

Module Demo.

Definition is_hex (c : ascii) : bool :=
  let n := nat_of_ascii c in
  ((48 <=? n) && (n <=? 57) || (97 <=? n) && (n <=? 102)
   || (65 <=? n) && (n <=? 70))%nat.

Definition lower (c : ascii) : ascii :=
  let n := nat_of_ascii c in
  if ((65 <=? n) && (n <=? 90))%nat then ascii_of_nat (n + 32) else c.

(** [bson.ObjectId] on a string: 24 hexadecimal digits make an
    identifier, printed back in lower case; anything else is refused. *)
Definition ObjectId (s : string) : result value :=
  let cs := String.list_ascii_of_string s in
  if (length cs =? 24)%nat && forallb is_hex cs
  then Return (VOid (String.string_of_list_ascii (map lower cs)))
  else Raise (PyError "InvalidId").

(** The driver's default configuration: [document_class] is [dict], which
    has no attribute [objectid_class]. *)
Definition objectid_class_default (s : string) : result value :=
  Raise (PyError "AttributeError").

(** [str] on identifiers and strings; the examples print nothing else. *)
Definition str (v : value) : string :=
  match v with
  | VOid h => h
  | VStr s => s
  | _ => "None"
  end.

(** The two shared orders [ensure_demo_data] inserts, as the store holds
    them, with identifiers of our choosing. *)
Definition order_1 : document :=
  [("_id", VOid "65a000000000000000000021");
   ("product_id", VStr "65a000000000000000000011");
   ("supplier_id", VStr "65a000000000000000000001");
   ("min_qty", VInt 200);
   ("pledged_qty", VInt 140);
   ("deadline", VDate 1700536800);
   ("participants",
     VList [VDict [("name", VStr "Atlas Retail"); ("email", VStr "atlas@example.com"); ("qty", VInt 100)];
            VDict [("name", VStr "Local Boutique"); ("email", VStr "boutique@example.com"); ("qty", VInt 40)]])].

Definition order_2 : document :=
  [("_id", VOid "65a000000000000000000022");
   ("product_id", VStr "65a000000000000000000012");
   ("supplier_id", VStr "65a000000000000000000002");
   ("min_qty", VInt 500);
   ("pledged_qty", VInt 460);
   ("deadline", VDate 1700216400);
   ("participants",
     VList [VDict [("name", VStr "Gym Chain"); ("email", VStr "gym@example.com"); ("qty", VInt 300)];
            VDict [("name", VStr "Boutique"); ("email", VStr "fashion@example.com"); ("qty", VInt 160)]])].

Definition seeded : database := {[ "sharedorder" := [order_1; order_2] ]}.

Definition id_2 : string := "65a000000000000000000022".

(** An order as the schema creates it by default: nothing pledged yet. *)
Definition order_3 : document :=
  [("_id", VOid "65a000000000000000000023");
   ("product_id", VStr "65a000000000000000000013");
   ("supplier_id", VStr "65a000000000000000000003");
   ("min_qty", VInt 1000);
   ("pledged_qty", VInt 0);
   ("deadline", VDate 1700816400);
   ("participants", VList [])].

Definition id_3 : string := "65a000000000000000000023".

Definition with_new_order : database :=
  {[ "sharedorder" := [order_1; order_2; order_3] ]}.

Definition query (qty : Z) (name : option string) (email : option string)
  : pledge_query :=
  {| q_qty := Some qty; q_name := name; q_email := email |}.

(** Three requests in a row: a pledge on the second order, a request for
    an order that is not there, a pledge on the first order. *)
Definition three_calls : list call :=
  [ {| c_order_id := id_2; c_query := query 50 (Some "NewBuyer") None |};
    {| c_order_id := "65a0000000000000000000ff"; c_query := query 5 None None |};
    {| c_order_id := "65a000000000000000000021"; c_query := query 7 None None |} ].

(** Two requests on the new order, and one way to interleave them. *)
Definition request_10 : request :=
  {| r_order_id := id_3; r_qty := 10; r_name := "A"; r_email := None |}.
Definition request_20 : request :=
  {| r_order_id := id_3; r_qty := 20; r_name := "B"; r_email := Some "b@example.com" |}.
Definition some_schedule : list bool :=
  [true; false; false; true; false; true; true; false].

(** Two of the products [ensure_demo_data] inserts, as the store holds
    them, without their prices. *)
Definition product_1 : document :=
  [("_id", VOid "65a000000000000000000011");
   ("title", VStr "Smart LED Panel");
   ("category", VStr "Electronics");
   ("in_stock", VBool true);
   ("supplier_id", VStr "65a000000000000000000001");
   ("min_order_qty", VInt 200)].

Definition product_2 : document :=
  [("_id", VOid "65a000000000000000000012");
   ("title", VStr "Organic Cotton T-Shirt");
   ("category", VStr "Apparel");
   ("in_stock", VBool true);
   ("supplier_id", VStr "65a000000000000000000002");
   ("min_order_qty", VInt 500)].

Definition catalogue : database :=
  {[ "product" := [product_1; product_2] ]}.

(** A store with one product only and no shared order. *)
Definition one_product : database := {[ "product" := [product_1] ]}.

(** A [create_document] that appends the document as it is. *)
Definition append_document (name : string) (d : document) : M string :=
  fun s => (Return "", <[name := coll s name ++ [d]]> s).

(** The suppliers [ensure_demo_data] inserts, as the store holds them,
    without their ratings. *)
Definition supplier_1 : document :=
  [("_id", VOid "65a000000000000000000001");
   ("name", VStr "NovaFab Industries");
   ("summary", VStr "Precision electronics assembly with global certifications.");
   ("location", VStr "Shenzhen, China");
   ("logo_url", VStr "https://images.unsplash.com/photo-1581090464777-f3220bbe1b8b");
   ("tags", VList [VStr "electronics"; VStr "assembly"; VStr "ISO9001"])].

Definition supplier_2 : document :=
  [("_id", VOid "65a000000000000000000002");
   ("name", VStr "GreenThread Textiles");
   ("summary", VStr "Sustainable garment manufacturing at scale.");
   ("location", VStr "Dhaka, Bangladesh");
   ("logo_url", VStr "https://images.unsplash.com/photo-1520975940200-695d9a720b4a");
   ("tags", VList [VStr "apparel"; VStr "organic"; VStr "ethical"])].

Definition supplier_3 : document :=
  [("_id", VOid "65a000000000000000000003");
   ("name", VStr "Form & Flow Plastics");
   ("summary", VStr "Injection molded parts with rapid tooling.");
   ("location", VStr "Guadalajara, Mexico");
   ("logo_url", VStr "https://images.unsplash.com/photo-1581090464777-f3220bbe1b8b");
   ("tags", VList [VStr "plastics"; VStr "molding"; VStr "prototyping"])].

Definition suppliers : database :=
  {[ "supplier" := [supplier_1; supplier_2; supplier_3] ]}.

(** [needle] occurs in [hay], letter case aside: what a [$regex] with the
    option [i] asks when the pattern is made of letters only. *)
Fixpoint starts_with_ci (needle hay : list ascii) : bool :=
  match needle, hay with
  | [], _ => true
  | a :: needle', b :: hay' =>
      Ascii.eqb (lower a) (lower b) && starts_with_ci needle' hay'
  | _ :: _, [] => false
  end.

Fixpoint occurs_ci (needle hay : list ascii) : bool :=
  starts_with_ci needle hay
  || match hay with
     | [] => false
     | _ :: hay' => occurs_ci needle hay'
     end.

(** One condition of a filter on one field, as the store reads it: a
    [$regex] with the option [i] on a string, and otherwise the value
    itself or, for an array, one of its elements. *)
Definition field_matches (cond field : value) : bool :=
  match cond with
  | VDict c =>
      match dict_get "$regex" c, dict_get "$options" c, field with
      | Some (VStr pat), Some (VStr "i"), VStr s =>
          occurs_ci (String.list_ascii_of_string pat)
            (String.list_ascii_of_string s)
      | _, _, _ => value_eqb field cond
      end
  | _ =>
      value_eqb field cond
      || match field with
         | VList l => existsb (fun x => value_eqb x cond) l
         | _ => false
         end
  end.

(** Modelled from the spec: [get_documents] of the [database] module,
    which is not among the sources, as the [find(collection, filter)] of
    the spec, with the store's reading of the conditions the listings
    build. A document matches when each field of the filter does. *)
Definition get_documents_store (name : string) (flt : document)
    (db : option database) : result (list document) * option database :=
  match db with
  | None => (Raise (PyError "Exception"), None)
  | Some s =>
      (Return
         (List.filter
            (fun d =>
               forallb
                 (fun kv => match dict_get (fst kv) d with
                            | Some f => field_matches (snd kv) f
                            | None => false
                            end) flt)
            (coll s name)), db)
  end.

(** Two pledges in a row on the new order. *)
Definition two_calls : list call :=
  [ {| c_order_id := id_3; c_query := query 10 (Some "A") None |};
    {| c_order_id := id_3; c_query := query 20 None (Some "b@example.com") |} ].

End Demo.

(** * Proofs *)

(** ** Facts about values and dictionaries *)

Section ValueInd.
Variable P : value -> Prop.
Hypothesis HNone : P VNone.
Hypothesis HBool : forall b, P (VBool b).
Hypothesis HInt : forall n, P (VInt n).
Hypothesis HStr : forall s, P (VStr s).
Hypothesis HOid : forall h, P (VOid h).
Hypothesis HDate : forall t, P (VDate t).
Hypothesis HList : forall l, Forall P l -> P (VList l).
Hypothesis HDict : forall d, Forall (fun kv => P (snd kv)) d -> P (VDict d).

Fixpoint value_ind_nested (v : value) : P v :=
  match v with
  | VNone => HNone
  | VBool b => HBool b
  | VInt n => HInt n
  | VStr s => HStr s
  | VOid h => HOid h
  | VDate t => HDate t
  | VList l =>
      HList l
        ((fix go (l : list value) : Forall P l :=
            match l with
            | [] => List.Forall_nil P
            | x :: l' => List.Forall_cons P x l' (value_ind_nested x) (go l')
            end) l)
  | VDict d =>
      HDict d
        ((fix go (d : document) : Forall (fun kv => P (snd kv)) d :=
            match d with
            | [] => List.Forall_nil _
            | kv :: d' => List.Forall_cons _ kv d' (value_ind_nested (snd kv)) (go d')
            end) d)
  end.
End ValueInd.

Lemma value_eqb_eq (a b : value) : value_eqb a b = true <-> a = b.
Proof.
  revert b. induction a as [| | | | | |l IH|d IH] using value_ind_nested;
    intros [| | | | | |l'|d']; simpl; try (split; [discriminate|discriminate]);
    try tauto.
  - rewrite Bool.eqb_true_iff. split; congruence.
  - rewrite Z.eqb_eq. split; congruence.
  - rewrite String.eqb_eq. split; congruence.
  - rewrite String.eqb_eq. split; congruence.
  - rewrite Z.eqb_eq. split; congruence.
  - revert l'. induction IH as [|x l Hx _ IHl]; intros [|y l'];
      try (split; [discriminate|discriminate]); try tauto.
    rewrite andb_true_iff, Hx, (IHl l'). split.
    + intros [-> H]. congruence.
    + intros H. injection H as -> ->. tauto.
  - revert d'. induction IH as [|[k x] d Hx _ IHd]; intros [|[k' y] d'];
      try (split; [discriminate|discriminate]); try tauto.
    simpl in Hx.
    rewrite !andb_true_iff, String.eqb_eq, Hx, (IHd d'). split.
    + intros [[-> ->] H]. congruence.
    + intros H. injection H as -> -> ->. tauto.
Qed.

Lemma value_eqb_refl (a : value) : value_eqb a a = true.
Proof. by apply value_eqb_eq. Qed.

Lemma dict_get_set_eq k v d : dict_get k (dict_set k v d) = Some v.
Proof.
  induction d as [|[k' v'] d IH]; simpl.
  - by rewrite String.eqb_refl.
  - destruct (String.eqb k' k) eqn:E; simpl.
    + by rewrite String.eqb_refl.
    + by rewrite E.
Qed.

Lemma dict_get_set_ne k k' v d :
  k <> k' -> dict_get k' (dict_set k v d) = dict_get k' d.
Proof.
  intros Hne. induction d as [|[k0 v0] d IH]; simpl.
  - destruct (String.eqb k k') eqn:E; [|done].
    apply String.eqb_eq in E. contradiction.
  - destruct (String.eqb k0 k) eqn:E; simpl.
    + apply String.eqb_eq in E. subst k0.
      destruct (String.eqb k k') eqn:E'; [|done].
      apply String.eqb_eq in E'. contradiction.
    + by rewrite IH.
Qed.

Lemma dict_get_del_eq k d : dict_get k (dict_del k d) = None.
Proof.
  induction d as [|[k' v'] d IH]; simpl; [done|].
  destruct (String.eqb k' k) eqn:E; simpl; [done|]. by rewrite E.
Qed.

Lemma dict_get_del_ne k k' d :
  k <> k' -> dict_get k' (dict_del k d) = dict_get k' d.
Proof.
  intros Hne. induction d as [|[k0 v0] d IH]; simpl; [done|].
  destruct (String.eqb k0 k) eqn:E; simpl.
  - apply String.eqb_eq in E. subst k0.
    destruct (String.eqb k k') eqn:E'; [|done].
    apply String.eqb_eq in E'. contradiction.
  - by rewrite IH.
Qed.

Lemma dict_keys_del k d : k ∉ dict_keys (dict_del k d).
Proof.
  induction d as [|[k' v'] d IH]; simpl.
  - apply not_elem_of_nil.
  - destruct (String.eqb k' k) eqn:E; simpl; [done|].
    apply not_elem_of_cons. split; [|done].
    intros ->. by rewrite String.eqb_refl in E.
Qed.

(** ** Facts about the store *)

Lemma matches_id v d :
  matches [("_id", v)] d = true <-> dict_get "_id" d = Some v.
Proof.
  unfold matches. simpl. rewrite andb_true_r.
  destruct (dict_get "_id" d) as [v'|]; [|split; discriminate].
  rewrite value_eqb_eq. split; congruence.
Qed.

Lemma find_nil_filter c : find c [] = c.
Proof.
  unfold find. induction c as [|d c IH]; simpl; [done|]. by rewrite IH.
Qed.

Lemma find_one_index c flt d :
  find_one c flt = Some d ->
  exists i, find_index c flt = Some i /\ c !! i = Some d /\ matches flt d = true.
Proof.
  induction c as [|d0 c IH]; simpl; [discriminate|].
  destruct (matches flt d0) eqn:E.
  - intros [= ->]. by exists 0%nat.
  - intros H. destruct (IH H) as (i & Hi & Hl & Hm).
    exists (S i). rewrite Hi. done.
Qed.

Lemma find_one_None_index c flt :
  find_one c flt = None <-> find_index c flt = None.
Proof.
  induction c as [|d0 c IH]; simpl; [done|].
  destruct (matches flt d0); [split; discriminate|].
  rewrite IH. destruct (find_index c flt); simpl; split; congruence.
Qed.

Lemma find_one_has_id c v d :
  find_one c [("_id", v)] = Some d -> dict_get "_id" d = Some v.
Proof.
  intros H. apply find_one_index in H as (i & _ & _ & Hm).
  by apply matches_id.
Qed.

(** [update_one] rewrites exactly the document [find_one] returns. *)
Lemma update_one_found c flt u d i :
  find_index c flt = Some i -> c !! i = Some d ->
  update_one c flt u = (d' ← apply_update u d; Some (<[i := d']> c)).
Proof.
  revert i. induction c as [|d0 c IH]; simpl; [discriminate|].
  intros i. destruct (matches flt d0) eqn:E.
  - intros [= <-] [= ->]. simpl. by destruct (apply_update u d).
  - destruct (find_index c flt) as [j|] eqn:Ej; [|discriminate].
    simpl. intros [= <-] Hl. simpl in Hl.
    rewrite (IH j eq_refl Hl). by destruct (apply_update u d).
Qed.

(** Replacing the found document by one with the same answer to the filter
    leaves it the one found. *)
Lemma find_index_insert c flt i d' :
  find_index c flt = Some i -> matches flt d' = true ->
  find_index (<[i := d']> c) flt = Some i.
Proof.
  revert i. induction c as [|d0 c IH]; simpl; [discriminate|].
  intros i. destruct (matches flt d0) eqn:E.
  - intros [= <-] Hm. simpl. by rewrite Hm.
  - destruct (find_index c flt) as [j|] eqn:Ej; [|discriminate].
    simpl. intros [= <-] Hm. simpl. rewrite E, (IH j eq_refl Hm). done.
Qed.

Lemma find_one_of_index c flt i d :
  find_index c flt = Some i -> c !! i = Some d -> find_one c flt = Some d.
Proof.
  revert i. induction c as [|d0 c IH]; simpl; [discriminate|].
  intros i. destruct (matches flt d0) eqn:E.
  - by intros [= <-] [= ->].
  - destruct (find_index c flt) as [j|] eqn:Ej; [|discriminate].
    simpl. intros [= <-] Hl. simpl in Hl. eauto.
Qed.

Lemma find_index_lt c flt i :
  find_index c flt = Some i -> (i < length c)%nat.
Proof.
  revert i. induction c as [|d0 c IH]; simpl; [discriminate|].
  intros i. destruct (matches flt d0).
  - intros [= <-]. lia.
  - destruct (find_index c flt) as [j|]; [|discriminate].
    simpl. intros [= <-]. specialize (IH j eq_refl). lia.
Qed.

Lemma find_one_insert c flt i d' :
  find_index c flt = Some i -> matches flt d' = true ->
  find_one (<[i := d']> c) flt = Some d'.
Proof.
  intros Hi Hm. apply find_one_of_index with i.
  - by apply find_index_insert.
  - apply list_lookup_insert_eq.
    by apply find_index_lt with flt.
Qed.

Lemma find_one_insert_other c flt i d d' :
  c !! i = Some d -> matches flt d = false -> matches flt d' = false ->
  find_one (<[i := d']> c) flt = find_one c flt.
Proof.
  revert i. induction c as [|d0 c IH]; intros [|i]; simpl; try done.
  - intros [= ->] -> ->. done.
  - intros Hl Hd Hd'. by rewrite (IH i Hl Hd Hd').
Qed.

Lemma qty_of_participant name email qty : qty_of (participant name email qty) = Some qty.
Proof. reflexivity. Qed.

Lemma coll_insert (s : database) name c : coll (<[name := c]> s) name = c.
Proof. unfold coll. by rewrite lookup_insert_eq. Qed.

Lemma coll_insert_ne (s : database) name name' c :
  name <> name' -> coll (<[name := c]> s) name' = coll s name'.
Proof. intros H. unfold coll. by rewrite lookup_insert_ne. Qed.

(** ** Facts about one pledge *)

Lemma apply_pledge_update doc qty name email :
  apply_update (pledge_update qty name email) doc =
  (p ← int_field "pledged_qty" doc;
   ps ← list_field "participants" doc;
   Some (pledged_doc doc p ps qty name email)).
Proof.
  unfold apply_update, pledge_update, pledged_doc; simpl.
  unfold apply_inc, int_field, list_field.
  destruct (dict_get "pledged_qty" doc) as [[]|] eqn:Ep; simpl; try done.
  - unfold apply_push. rewrite dict_get_set_ne by done.
    by destruct (dict_get "participants" doc) as [[]|].
  - unfold apply_push. rewrite dict_get_set_ne by done.
    by destruct (dict_get "participants" doc) as [[]|].
Qed.

Lemma pledged_doc_pledged_qty doc p ps qty name email :
  dict_get "pledged_qty" (pledged_doc doc p ps qty name email)
  = Some (VInt (p + qty)).
Proof.
  unfold pledged_doc. rewrite dict_get_set_ne by done. apply dict_get_set_eq.
Qed.

Lemma pledged_doc_participants doc p ps qty name email :
  dict_get "participants" (pledged_doc doc p ps qty name email)
  = Some (VList (ps ++ [participant name email qty])).
Proof. unfold pledged_doc. apply dict_get_set_eq. Qed.

Lemma pledged_doc_other doc p ps qty name email k :
  k <> "pledged_qty" -> k <> "participants" ->
  dict_get k (pledged_doc doc p ps qty name email) = dict_get k doc.
Proof.
  intros H1 H2. unfold pledged_doc. by rewrite !dict_get_set_ne.
Qed.

Lemma sum_qty_snoc ps name email qty :
  sum_qty (ps ++ [participant name email qty]) = (fun t => t + qty) <$> sum_qty ps.
Proof.
  induction ps as [|x ps IH]; simpl.
  - f_equal. lia.
  - destruct (qty_of x) as [q|]; simpl; [|done].
    rewrite IH. destruct (sum_qty ps); simpl; [|done]. f_equal. lia.
Qed.

Section LedgerFacts.

Variable objectid_class : string -> result value.
Variable ObjectId : string -> result value.
Variable str : value -> string.

Local Abbreviation expose_id := (expose_id str).
Local Abbreviation lookup_order := (lookup_order objectid_class ObjectId).
Local Abbreviation resolves := (resolves objectid_class ObjectId).
Local Abbreviation apply_pledge := (apply_pledge str).
Local Abbreviation pledge_body := (pledge_body objectid_class ObjectId str).
Local Abbreviation pledge_to_shared_order :=
  (pledge_to_shared_order objectid_class ObjectId str).
Local Abbreviation post_pledge := (post_pledge objectid_class ObjectId str).
Local Abbreviation list_shared_orders := (list_shared_orders str).

Lemma expose_id_no_internal it : dict_get "_id" (expose_id it) = None.
Proof.
  unfold expose_id, dict_pop.
  rewrite dict_get_set_ne by done. apply dict_get_del_eq.
Qed.

Lemma expose_id_id it :
  dict_get "id" (expose_id it)
  = Some (VStr (str (default (VStr "") (dict_get "_id" it)))).
Proof. unfold expose_id, dict_pop. apply dict_get_set_eq. Qed.

Lemma expose_id_other it k :
  k <> "id" -> k <> "_id" -> dict_get k (expose_id it) = dict_get k it.
Proof.
  intros H1 H2. unfold expose_id, dict_pop.
  rewrite dict_get_set_ne by done. by apply dict_get_del_ne.
Qed.

(** The look-up only reads. *)
Lemma lookup_order_reads order_id s : snd (lookup_order order_id s) = s.
Proof.
  unfold lookup_order, primary_lookup, fallback_lookup, bind, lift,
    db_find_one, try_except, ret.
  destruct (objectid_class order_id) as [oid|e]; simpl; [|done].
  destruct (truthy _); simpl; [done|].
  by destruct (ObjectId order_id).
Qed.

(** What the look-up returns is a stored document, found by its [_id]. *)
Lemma lookup_order_found order_id s doc :
  resolves s order_id doc ->
  exists id, dict_get "_id" doc = Some id
             /\ find_one (coll s "sharedorder") [("_id", id)] = Some doc.
Proof.
  unfold resolves, lookup_order, primary_lookup, fallback_lookup, bind, lift, db_find_one,
    try_except, ret.
  destruct (objectid_class order_id) as [oid|e]; simpl; [|discriminate].
  destruct (find_one _ [("_id", oid)]) as [d|] eqn:E1; simpl.
  - destruct d as [|kv d]; simpl.
    + apply find_one_has_id in E1. discriminate.
    + intros [= <-]. exists oid. split; [|done]. by apply find_one_has_id in E1.
  - destruct (ObjectId order_id) as [oid'|e']; simpl; [|discriminate].
    intros H. injection H as H. exists oid'. split; [|done].
    by apply find_one_has_id in H.
Qed.

Lemma resolves_lookup s order_id doc :
  resolves s order_id doc -> lookup_order order_id s = (Return (Some doc), s).
Proof.
  unfold resolves. intros H. pose proof (lookup_order_reads order_id s) as Hs.
  destruct (lookup_order order_id s) as [r s0]. simpl in *. by subst.
Qed.

(** Lines 235 to 238 on the document at position [i] of the collection:
    either the store refuses the update and nothing is written, or the
    document is replaced by its update and returned under its external
    identifier. *)
Lemma apply_pledge_run s doc id i qty name email :
  dict_get "_id" doc = Some id ->
  find_index (coll s "sharedorder") [("_id", id)] = Some i ->
  coll s "sharedorder" !! i = Some doc ->
  apply_pledge doc qty name email s =
  match apply_update (pledge_update qty name email) doc with
  | Some doc' =>
      (Return (expose_id doc'),
       <["sharedorder" := <[i := doc']> (coll s "sharedorder")]> s)
  | None => (Raise (PyError "WriteError"), s)
  end.
Proof.
  intros Hid Hi Hl.
  unfold apply_pledge, record_pledge, read_back, bind, lift, getitem,
    db_update_one, db_find_one.
  rewrite Hid. simpl.
  rewrite (find_one_of_index _ _ _ _ Hi Hl).
  rewrite (update_one_found _ _ _ _ _ Hi Hl).
  destruct (apply_update _ doc) as [doc'|] eqn:Eu; simpl; [|done].
  rewrite coll_insert.
  assert (dict_get "_id" doc' = Some id) as Hid'.
  { rewrite apply_pledge_update in Eu.
    destruct (int_field _ doc) as [p|]; simpl in Eu; [|discriminate].
    destruct (list_field _ doc) as [ps|]; simpl in Eu; [|discriminate].
    injection Eu as <-. by rewrite pledged_doc_other. }
  rewrite (find_one_insert _ _ _ doc' Hi); [done|]. by apply matches_id.
Qed.

Lemma pledge_body_run s order_id doc qty name email :
  resolves s order_id doc ->
  exists id i,
    dict_get "_id" doc = Some id
    /\ find_index (coll s "sharedorder") [("_id", id)] = Some i
    /\ coll s "sharedorder" !! i = Some doc
    /\ pledge_body order_id qty name email s =
       match apply_update (pledge_update qty name email) doc with
       | Some doc' =>
           (Return (expose_id doc'),
            <["sharedorder" := <[i := doc']> (coll s "sharedorder")]> s)
       | None => (Raise (PyError "WriteError"), s)
       end.
Proof.
  intros Hr. destruct (lookup_order_found _ _ _ Hr) as (id & Hid & Hf).
  destruct (find_one_index _ _ _ Hf) as (i & Hi & Hl & _).
  exists id, i. repeat split; try done.
  unfold pledge_body, bind. rewrite (resolves_lookup _ _ _ Hr).
  destruct doc as [|kv doc]; [discriminate|].
  by apply apply_pledge_run with id.
Qed.

(** A pledge that returns has resolved its order. *)
Lemma pledge_body_returns s order_id qty name email r s' :
  pledge_body order_id qty name email s = (Return r, s') ->
  exists doc, resolves s order_id doc.
Proof.
  unfold pledge_body, bind, resolves.
  destruct (lookup_order order_id s) as [[[[|kv doc]|]|e] s0]; simpl;
    try discriminate.
  intros _. eauto.
Qed.

(** The two ways a pledge ends: it raises and the store is as before, or
    it returns and exactly one stored order has been replaced by
    [pledged_doc] of itself. *)
Lemma pledge_body_cases s order_id qty name email :
  (exists e, pledge_body order_id qty name email s = (Raise e, s))
  \/ (exists doc id i p ps,
        resolves s order_id doc
        /\ dict_get "_id" doc = Some id
        /\ find_index (coll s "sharedorder") [("_id", id)] = Some i
        /\ coll s "sharedorder" !! i = Some doc
        /\ int_field "pledged_qty" doc = Some p
        /\ list_field "participants" doc = Some ps
        /\ pledge_body order_id qty name email s =
           (Return (expose_id (pledged_doc doc p ps qty name email)),
            <["sharedorder" :=
                <[i := pledged_doc doc p ps qty name email]> (coll s "sharedorder")]> s)).
Proof.
  destruct (lookup_order order_id s) as [r0 s0] eqn:E.
  pose proof (lookup_order_reads order_id s) as Hs. rewrite E in Hs.
  simpl in Hs. subst s0.
  assert (forall doc, r0 = Return (Some doc) -> resolves s order_id doc) as Hres.
  { intros doc ->. unfold resolves. by rewrite E. }
  destruct r0 as [[[|kv doc]|]|e];
    try (left; eexists; unfold pledge_body, bind; rewrite E; reflexivity).
  specialize (Hres _ eq_refl).
  destruct (pledge_body_run _ _ _ qty name email Hres) as (id & i & Hid & Hi & Hl & Hrun).
  rewrite apply_pledge_update in Hrun.
  destruct (int_field "pledged_qty" (kv :: doc)) as [p|] eqn:Ep;
    [|left; eexists; exact Hrun].
  destruct (list_field "participants" (kv :: doc)) as [ps|] eqn:Eps;
    [|left; eexists; exact Hrun].
  right. exists (kv :: doc), id, i, p, ps. done.
Qed.

Lemma schema_fields doc :
  is_SharedOrder doc = true ->
  exists p ps,
    dict_get "pledged_qty" doc = Some (VInt p)
    /\ dict_get "participants" doc = Some (VList ps)
    /\ 0 <= p.
Proof.
  unfold is_SharedOrder.
  destruct (dict_get "product_id" doc) as [[]|]; try discriminate.
  destruct (dict_get "supplier_id" doc) as [[]|]; try discriminate.
  destruct (dict_get "min_qty" doc) as [[]|]; try discriminate.
  destruct (dict_get "pledged_qty" doc) as [[| |p| | | | |]|]; try discriminate.
  destruct (dict_get "deadline" doc) as [[]|]; try discriminate.
  destruct (dict_get "participants" doc) as [[| | | | | |ps|]|]; try discriminate.
  intros H. exists p, ps. repeat split.
  apply andb_prop in H as [H _]. apply andb_prop in H as [_ H]. lia.
Qed.

Lemma pledge_returns s order_id qty name email r db' :
  pledge_to_shared_order (Some s) order_id qty name email = (Return r, db') ->
  exists doc id i p ps,
    resolves s order_id doc
    /\ dict_get "_id" doc = Some id
    /\ find_index (coll s "sharedorder") [("_id", id)] = Some i
    /\ coll s "sharedorder" !! i = Some doc
    /\ int_field "pledged_qty" doc = Some p
    /\ list_field "participants" doc = Some ps
    /\ r = expose_id (pledged_doc doc p ps qty name email)
    /\ db' = Some (<["sharedorder" :=
                      <[i := pledged_doc doc p ps qty name email]>
                        (coll s "sharedorder")]> s).
Proof.
  unfold pledge_to_shared_order.
  destruct (pledge_body_cases s order_id qty name email)
    as [[e He]|(doc & id & i & p & ps & H1 & H2 & H3 & H4 & H5 & H6 & He)];
    rewrite He; [discriminate|].
  intros [= <- <-]. exists doc, id, i, p, ps. done.
Qed.

Lemma pledge_raises s order_id qty name email e db' :
  pledge_to_shared_order (Some s) order_id qty name email = (Raise e, db') ->
  db' = Some s.
Proof.
  unfold pledge_to_shared_order.
  destruct (pledge_body_cases s order_id qty name email)
    as [[e' He]|(doc & id & i & p & ps & H1 & H2 & H3 & H4 & H5 & H6 & He)];
    rewrite He; [|discriminate].
  by intros [= <- <-].
Qed.

Lemma post_pledge_returns s order_id q r db' :
  post_pledge (Some s) order_id q = (Return r, db') ->
  exists qty,
    q_qty q = Some qty /\ 1 <= qty
    /\ pledge_to_shared_order (Some s) order_id qty
         (default "Guest" (q_name q)) (q_email q) = (Return r, db').
Proof.
  unfold post_pledge. destruct (q_qty q) as [qty|]; [|discriminate].
  destruct (qty <? 1) eqn:E; [discriminate|].
  intros H. exists qty. repeat split; [lia|done].
Qed.

Lemma post_pledge_raises s order_id q e db' :
  post_pledge (Some s) order_id q = (Raise e, db') -> db' = Some s.
Proof.
  unfold post_pledge. destruct (q_qty q) as [qty|]; [|by intros [= <- <-]].
  destruct (qty <? 1); [by intros [= <- <-]|]. apply pledge_raises.
Qed.

(** The step machine is the handler: run alone, it ends after four steps
    with the response and the store of [pledge_body]. *)
Lemma handler_steps_pledge_body r s :
  handler_steps objectid_class ObjectId str r 4 AtLookup s =
  let '(x, s') := pledge_body (r_order_id r) (r_qty r) (r_name r) (r_email r) s in
  (Done x, s').
Proof.
  unfold pledge_body, lookup_order, apply_pledge, bind. simpl.
  destruct (primary_lookup _ _ s) as [[doc|e] s1] eqn:E1; simpl; [|done].
  destruct doc as [[|kv doc]|]; simpl.
  - destruct (fallback_lookup _ _ s1) as [[[[|kv' doc']|]|e] s2]; simpl; try done.
    destruct (record_pledge _ _ _ _ s2) as [[[]|e] s3]; simpl; [|done].
    by destruct (read_back _ _ s3).
  - destruct (record_pledge _ _ _ _ s1) as [[[]|e] s3]; simpl; [|done].
    by destruct (read_back _ _ s3).
  - destruct (fallback_lookup _ _ s1) as [[[[|kv' doc']|]|e] s2]; simpl; try done.
    destruct (record_pledge _ _ _ _ s2) as [[[]|e] s3]; simpl; [|done].
    by destruct (read_back _ _ s3).
Qed.

End LedgerFacts.

(** ** Properties of the ledger *)

Section LedgerProperties.

Variable objectid_class : string -> result value.
Variable ObjectId : string -> result value.
Variable str : value -> string.

Local Abbreviation expose_id := (expose_id str).
Local Abbreviation resolves := (resolves objectid_class ObjectId).
Local Abbreviation pledge_to_shared_order :=
  (pledge_to_shared_order objectid_class ObjectId str).
Local Abbreviation post_pledge := (post_pledge objectid_class ObjectId str).
Local Abbreviation list_shared_orders := (list_shared_orders str).
Local Abbreviation run_pledges := (run_pledges objectid_class ObjectId str).
Local Abbreviation pledges_on := (pledges_on objectid_class ObjectId).
Local Abbreviation successful_pledges :=
  (successful_pledges objectid_class ObjectId str).

(** Where the look-up of lines 225 to 232 returns a stored SharedOrder
    and [qty >= 1], the pledge returns; the store then holds the order with [pledged_qty]
    raised by [qty] and the new participant appended, and the response is
    that stored record with [_id] removed and [id] set to its string. *)
Theorem pledge_returns_updated_order s order_id doc qty name email :
  resolves s order_id doc ->
  is_SharedOrder doc = true ->
  1 <= qty ->
  exists id p ps doc' s',
    dict_get "_id" doc = Some id
    /\ dict_get "pledged_qty" doc = Some (VInt p)
    /\ dict_get "participants" doc = Some (VList ps)
    /\ post_pledge (Some s) order_id
         {| q_qty := Some qty; q_name := name; q_email := email |}
       = (Return (expose_id doc'), Some s')
    /\ find_one (coll s' "sharedorder") [("_id", id)] = Some doc'
    /\ dict_get "pledged_qty" doc' = Some (VInt (p + qty))
    /\ dict_get "participants" doc'
       = Some (VList (ps ++ [participant (default "Guest" name) email qty]))
    /\ dict_get "pledged_qty" (expose_id doc') = Some (VInt (p + qty))
    /\ dict_get "participants" (expose_id doc')
       = Some (VList (ps ++ [participant (default "Guest" name) email qty]))
    /\ dict_get "_id" (expose_id doc') = None
    /\ dict_get "id" (expose_id doc') = Some (VStr (str id)).
Proof.
  intros Hr Hs Hq.
  destruct (schema_fields _ Hs) as (p & ps & Hp & Hps & _).
  destruct (pledge_body_run objectid_class ObjectId str _ _ _ qty
              (default "Guest" name) email Hr)
    as (id & i & Hid & Hi & Hl & Hrun).
  rewrite apply_pledge_update in Hrun.
  unfold int_field, list_field in Hrun. rewrite Hp, Hps in Hrun. simpl in Hrun.
  set (doc' := pledged_doc doc p ps qty (default "Guest" name) email) in *.
  assert (dict_get "_id" doc' = Some id) as Hid'.
  { unfold doc'. by rewrite pledged_doc_other. }
  exists id, p, ps, doc', (<["sharedorder" := <[i := doc']> (coll s "sharedorder")]> s).
  repeat split; try done.
  - unfold post_pledge, pledge_to_shared_order. simpl.
    destruct (qty <? 1) eqn:E; [lia|]. by rewrite Hrun.
  - rewrite coll_insert. apply find_one_insert; [done|]. by apply matches_id.
  - apply pledged_doc_pledged_qty.
  - apply pledged_doc_participants.
  - rewrite expose_id_other by done. apply pledged_doc_pledged_qty.
  - rewrite expose_id_other by done. apply pledged_doc_participants.
  - apply expose_id_no_internal.
  - rewrite expose_id_id, Hid'. done.
Qed.

(** C4: a [qty] of zero or less is refused by the validation of the
    route with status 422, and the store is left as it was. *)
Theorem pledge_rejects_nonpositive_qty db order_id qty name email :
  qty <= 0 ->
  post_pledge db order_id {| q_qty := Some qty; q_name := name; q_email := email |}
  = (Raise RequestValidationError, db)
  /\ status_of (fst (post_pledge db order_id
                       {| q_qty := Some qty; q_name := name; q_email := email |}))
     = 422.
Proof.
  intros Hq. unfold post_pledge. simpl.
  destruct (qty <? 1) eqn:E; [done|lia].
Qed.

(** The identifier of the order an order id resolves to is what the
    conversion of line 225 or the [ObjectId] of line 230 made of the id. *)
Lemma resolves_converts s order_id doc id :
  resolves s order_id doc ->
  dict_get "_id" doc = Some id ->
  objectid_class order_id = Return id \/ ObjectId order_id = Return id.
Proof.
  unfold resolves, lookup_order, primary_lookup, fallback_lookup, bind, lift,
    db_find_one, try_except, ret.
  destruct (objectid_class order_id) as [oid|e]; simpl; [|discriminate].
  destruct (find_one _ [("_id", oid)]) as [d|] eqn:E1; simpl.
  - destruct d as [|kv d]; simpl.
    + apply find_one_has_id in E1. discriminate.
    + intros [= <-] Hid. apply find_one_has_id in E1. left. congruence.
  - destruct (ObjectId order_id) as [oid'|e']; simpl; [|discriminate].
    intros [= H] Hid. apply find_one_has_id in H. right. congruence.
Qed.

(** C9: a pledge that returns has rewritten the order its order id
    resolves to, the first document stored under the identifier the id
    converts to, and the response is that document under its external
    [id]. The document differs from what it was in [pledged_qty] and
    [participants] only ([min_qty], [deadline], [product_id] and
    [supplier_id] among the fields kept); the former participants are a
    prefix of the new list, each at its position, and the new record, with
    the name, email and quantity of the request, is the last one; every
    other order and every other collection is as before. *)
Theorem pledge_frame s order_id qty name email r db' :
  pledge_to_shared_order (Some s) order_id qty name email = (Return r, db') ->
  exists s' i id doc doc' p ps ps' new,
    db' = Some s'
    /\ resolves s order_id doc
    /\ dict_get "_id" doc = Some id
    /\ (objectid_class order_id = Return id \/ ObjectId order_id = Return id)
    /\ find_index (coll s "sharedorder") [("_id", id)] = Some i
    /\ coll s "sharedorder" !! i = Some doc
    /\ coll s' "sharedorder" !! i = Some doc'
    /\ r = expose_id doc'
    /\ dict_get "id" r = Some (VStr (str id))
    /\ dict_get "_id" doc' = Some id
    /\ (forall k, k <> "pledged_qty" -> k <> "participants" ->
                  dict_get k doc' = dict_get k doc)
    /\ dict_get "min_qty" doc' = dict_get "min_qty" doc
    /\ dict_get "deadline" doc' = dict_get "deadline" doc
    /\ dict_get "product_id" doc' = dict_get "product_id" doc
    /\ dict_get "supplier_id" doc' = dict_get "supplier_id" doc
    /\ int_field "pledged_qty" doc = Some p
    /\ dict_get "pledged_qty" doc' = Some (VInt (p + qty))
    /\ list_field "participants" doc = Some ps
    /\ dict_get "participants" doc' = Some (VList ps')
    /\ ps' = ps ++ [VDict new]
    /\ dict_keys new = ["name"; "email"; "qty"]
    /\ dict_get "name" new = Some (VStr name)
    /\ dict_get "email" new
       = Some (match email with Some e => VStr e | None => VNone end)
    /\ dict_get "qty" new = Some (VInt qty)
    /\ (forall j e, ps !! j = Some e -> ps' !! j = Some e)
    /\ ps' !! length ps = Some (VDict new)
    /\ length (coll s' "sharedorder") = length (coll s "sharedorder")
    /\ (forall j, j <> i -> coll s' "sharedorder" !! j = coll s "sharedorder" !! j)
    /\ (forall c, c <> "sharedorder" -> s' !! c = s !! c).
Proof.
  intros H.
  apply pledge_returns in H
    as (doc & id & i & p & ps & Hr & Hid & Hi & Hl & Hp & Hps & -> & ->).
  set (doc' := pledged_doc doc p ps qty name email).
  assert (dict_get "_id" doc' = Some id) as Hid'.
  { unfold doc'. by rewrite pledged_doc_other. }
  exists (<["sharedorder" := <[i := doc']> (coll s "sharedorder")]> s),
    i, id, doc, doc', p, ps, (ps ++ [participant name email qty]).
  eexists. split; [reflexivity|]. rewrite coll_insert.
  split; [done|]. split; [done|].
  split; [by apply resolves_converts with s doc|].
  split; [done|]. split; [done|]. split.
  { apply list_lookup_insert_eq. by apply lookup_lt_Some with doc. }
  split; [done|].
  split. { by rewrite expose_id_id, Hid'. }
  split; [done|].
  split. { intros k H1 H2. by apply pledged_doc_other. }
  unfold doc'. rewrite !pledged_doc_other by done. do 4 (split; [done|]).
  split; [done|]. split; [apply pledged_doc_pledged_qty|].
  split; [done|]. split; [apply pledged_doc_participants|].
  split; [reflexivity|]. do 4 (split; [reflexivity|]). split.
  { intros j e Hj. by apply lookup_app_l_Some. }
  split. { by rewrite lookup_app_r, Nat.sub_diag by lia. }
  split; [apply length_insert|]. split.
  { intros j Hj. by apply list_lookup_insert_ne. }
  intros c Hc. by apply lookup_insert_ne.
Qed.

(** C8: when the query has no [name], the record appended by a pledge
    that returns carries the name ["Guest"]. *)
Theorem pledge_default_name s order_id qty email r db' :
  post_pledge (Some s) order_id
    {| q_qty := qty; q_name := None; q_email := email |} = (Return r, db') ->
  exists s' i doc' ps e,
    db' = Some s'
    /\ coll s' "sharedorder" !! i = Some doc'
    /\ r = expose_id doc'
    /\ dict_get "participants" doc' = Some (VList (ps ++ [VDict e]))
    /\ dict_get "participants" r = Some (VList (ps ++ [VDict e]))
    /\ dict_get "name" e = Some (VStr "Guest").
Proof.
  intros H. apply post_pledge_returns in H as (n & Hn & Hge & H). simpl in *.
  apply pledge_returns in H
    as (doc & id & i & p & ps & Hr & Hid & Hi & Hl & Hp & Hps & -> & ->).
  eexists _, i, _, ps, _. split; [reflexivity|]. rewrite coll_insert.
  split. { apply list_lookup_insert_eq. by apply lookup_lt_Some with doc. }
  split; [reflexivity|]. split; [apply pledged_doc_participants|].
  split. { rewrite expose_id_other by done. apply pledged_doc_participants. }
  reflexivity.
Qed.

(** C10: the record appended by a pledge that returns has exactly the
    fields [name], [email] and [qty]; when the query has no [email], the
    field is there with the value [None]. *)
Theorem pledge_participant_shape s order_id q r db' :
  post_pledge (Some s) order_id q = (Return r, db') ->
  exists s' i doc' ps e,
    db' = Some s'
    /\ coll s' "sharedorder" !! i = Some doc'
    /\ dict_get "participants" doc' = Some (VList (ps ++ [VDict e]))
    /\ dict_get "participants" r = Some (VList (ps ++ [VDict e]))
    /\ dict_keys e = ["name"; "email"; "qty"]
    /\ (q_email q = None -> dict_get "email" e = Some VNone).
Proof.
  intros H. apply post_pledge_returns in H as (n & Hn & Hge & H).
  apply pledge_returns in H
    as (doc & id & i & p & ps & Hr & Hid & Hi & Hl & Hp & Hps & -> & ->).
  eexists _, i, _, ps, _. split; [reflexivity|]. rewrite coll_insert.
  split. { apply list_lookup_insert_eq. by apply lookup_lt_Some with doc. }
  split; [apply pledged_doc_participants|].
  split. { rewrite expose_id_other by done. apply pledged_doc_participants. }
  split; [reflexivity|]. by intros ->.
Qed.

(** C5: on an order with [min_qty = 500], [pledged_qty = 460] and the
    participants Gym Chain (300) and Boutique (160), the pledge of 50 by
    NewBuyer returns a record with [pledged_qty = 510] and three
    participants, the last one named NewBuyer with [qty = 50]. *)
Theorem pledge_scenario_newbuyer s order_id doc e1 e2 email :
  resolves s order_id doc ->
  dict_get "min_qty" doc = Some (VInt 500) ->
  dict_get "pledged_qty" doc = Some (VInt 460) ->
  dict_get "participants" doc
  = Some (VList [VDict [("name", VStr "Gym Chain"); ("email", e1); ("qty", VInt 300)];
                 VDict [("name", VStr "Boutique"); ("email", e2); ("qty", VInt 160)]]) ->
  exists res db' ps new,
    post_pledge (Some s) order_id
      {| q_qty := Some 50; q_name := Some "NewBuyer"; q_email := email |}
    = (Return res, db')
    /\ dict_get "min_qty" res = Some (VInt 500)
    /\ dict_get "pledged_qty" res = Some (VInt 510)
    /\ dict_get "participants" res = Some (VList ps)
    /\ length ps = 3%nat
    /\ last ps = Some (VDict new)
    /\ dict_get "name" new = Some (VStr "NewBuyer")
    /\ dict_get "qty" new = Some (VInt 50).
Proof.
  intros Hr Hm Hp Hps.
  destruct (pledge_body_run objectid_class ObjectId str _ _ _ 50
              "NewBuyer" email Hr)
    as (id & i & Hid & Hi & Hl & Hrun).
  rewrite apply_pledge_update in Hrun.
  unfold int_field, list_field in Hrun. rewrite Hp, Hps in Hrun. simpl in Hrun.
  set (doc' := pledged_doc doc 460 _ 50 "NewBuyer" email) in *.
  exists (expose_id doc'), (Some (<["sharedorder" := <[i := doc']> (coll s "sharedorder")]> s)).
  eexists _, _. split.
  { unfold post_pledge, pledge_to_shared_order. simpl. by rewrite Hrun. }
  split. { rewrite expose_id_other by done. unfold doc'. by rewrite pledged_doc_other. }
  split. { rewrite expose_id_other by done. apply pledged_doc_pledged_qty. }
  split. { rewrite expose_id_other by done. apply pledged_doc_participants. }
  repeat split.
Qed.

(** C7: with a store at hand, the listing returns one item per stored
    shared order, in order; each item is the order with [id] set to the
    string of its [_id], without [_id], and with its other fields as
    stored; the store is not changed. *)
Theorem list_shared_orders_all s :
  exists items,
    list_shared_orders (Some s)
    = (Return (VDict [("items", VList items)]), Some s)
    /\ length items = length (coll s "sharedorder")
    /\ forall i d, coll s "sharedorder" !! i = Some d ->
         exists it,
           items !! i = Some (VDict it)
           /\ dict_get "id" it
              = Some (VStr (str (default (VStr "") (dict_get "_id" d))))
           /\ dict_get "_id" it = None
           /\ forall k, k <> "id" -> k <> "_id" -> dict_get k it = dict_get k d.
Proof.
  eexists. split; [reflexivity|]. rewrite find_nil_filter.
  split; [apply length_fmap|].
  intros i d Hd. exists (expose_id d). split.
  { by rewrite list_lookup_fmap, Hd. }
  split; [apply expose_id_id|]. split; [apply expose_id_no_internal|].
  intros k H1 H2. by apply expose_id_other.
Qed.

Lemma matches_id_false v d id :
  dict_get "_id" d = Some v -> value_eqb v id = false ->
  matches [("_id", id)] d = false.
Proof.
  intros Hd Hne. destruct (matches _ d) eqn:E; [|done].
  apply matches_id in E. rewrite Hd in E. injection E as ->.
  by rewrite value_eqb_refl in Hne.
Qed.

(** One request, seen from the order stored under [id]. *)
Lemma post_pledge_on_order s c id d0 p ps r db' :
  find_one (coll s "sharedorder") [("_id", id)] = Some d0 ->
  dict_get "pledged_qty" d0 = Some (VInt p) ->
  dict_get "participants" d0 = Some (VList ps) ->
  post_pledge (Some s) (c_order_id c) (c_query c) = (r, db') ->
  exists s' d p' ps',
    db' = Some s'
    /\ find_one (coll s' "sharedorder") [("_id", id)] = Some d
    /\ dict_get "pledged_qty" d = Some (VInt p')
    /\ dict_get "participants" d = Some (VList ps')
    /\ length ps'
       = (length ps + (if pledges_on id (Some s) c && is_return r then 1 else 0))%nat
    /\ (sum_qty ps = Some p -> sum_qty ps' = Some p').
Proof.
  intros Hf Hp Hps H. destruct r as [r|e].
  - apply post_pledge_returns in H as (qty & Hq & Hge & H).
    apply pledge_returns in H
      as (doc & id1 & i & p1 & ps1 & Hr & Hid & Hi & Hl & Hp1 & Hps1 & -> & ->).
    set (doc' := pledged_doc doc p1 ps1 qty _ _) in *.
    assert (dict_get "_id" doc' = Some id1) as Hid'.
    { unfold doc'. by rewrite pledged_doc_other. }
    unfold pledges_on. unfold resolves in Hr.
    rewrite Hr, Hid. simpl.
    eexists _. rewrite coll_insert.
    destruct (value_eqb id1 id) eqn:E; simpl.
    + apply value_eqb_eq in E. subst id1.
      rewrite (find_one_of_index _ _ _ _ Hi Hl) in Hf. injection Hf as ->.
      unfold int_field in Hp1. rewrite Hp in Hp1. injection Hp1 as <-.
      unfold list_field in Hps1. rewrite Hps in Hps1. injection Hps1 as <-.
      exists doc', (p + qty), (ps ++ [participant (default "Guest" (q_name (c_query c)))
                                    (q_email (c_query c)) qty]).
      split; [reflexivity|]. split.
      { apply find_one_insert; [done|]. by apply matches_id. }
      split; [apply pledged_doc_pledged_qty|].
      split; [apply pledged_doc_participants|].
      split. { rewrite length_app. simpl. done. }
      intros Hs. by rewrite sum_qty_snoc, Hs.
    + exists d0, p, ps. split; [reflexivity|]. split.
      { rewrite (find_one_insert_other _ _ _ doc); try done.
        - by apply matches_id_false with id1.
        - by apply matches_id_false with id1. }
      repeat split; try done; lia.
  - apply post_pledge_raises in H as ->.
    exists s, d0, p, ps. rewrite andb_false_r. repeat split; try done; lia.
Qed.

(** On an order stored with [pledged_qty = p] and
    the participants [ps], any sequence of pledge requests leaves the
    order with as many participants as [ps] had plus the number of
    successful pledges on it, and with [pledged_qty] equal to the sum of
    the participants' [qty] whenever [p] was the sum over [ps]; so for an
    order created with no participants the length is the number of
    successful pledges. *)
Theorem pledges_keep_ledger_consistent s calls id d0 p ps :
  find_one (coll s "sharedorder") [("_id", id)] = Some d0 ->
  dict_get "pledged_qty" d0 = Some (VInt p) ->
  dict_get "participants" d0 = Some (VList ps) ->
  exists s' d p' ps',
    snd (run_pledges (Some s) calls) = Some s'
    /\ find_one (coll s' "sharedorder") [("_id", id)] = Some d
    /\ dict_get "pledged_qty" d = Some (VInt p')
    /\ dict_get "participants" d = Some (VList ps')
    /\ length ps' = (length ps + successful_pledges id (Some s) calls)%nat
    /\ (ps = [] -> length ps' = successful_pledges id (Some s) calls)
    /\ (consistent d0 -> consistent d).
Proof.
  intros Hf Hp Hps.
  enough (exists s' d p' ps',
    snd (run_pledges (Some s) calls) = Some s'
    /\ find_one (coll s' "sharedorder") [("_id", id)] = Some d
    /\ dict_get "pledged_qty" d = Some (VInt p')
    /\ dict_get "participants" d = Some (VList ps')
    /\ length ps' = (length ps + successful_pledges id (Some s) calls)%nat
    /\ (sum_qty ps = Some p -> sum_qty ps' = Some p'))
    as (s' & d & p' & ps' & Hrun & Hf' & Hp' & Hps' & Hlen & Hsum).
  { exists s', d, p', ps'. repeat split; try done.
    - intros ->. simpl in Hlen. lia.
    - intros (p0 & ps0 & Hp0 & Hps0 & Hs0).
      rewrite Hp in Hp0. rewrite Hps in Hps0.
      injection Hp0 as <-. injection Hps0 as <-.
      exists p', ps'. auto. }
  revert s d0 p ps Hf Hp Hps.
  induction calls as [|c cs IH]; intros s d0 p ps Hf Hp Hps.
  - exists s, d0, p, ps. simpl. repeat split; try done; lia.
  - simpl.
    destruct (post_pledge (Some s) (c_order_id c) (c_query c)) as [r db1] eqn:E.
    destruct (post_pledge_on_order _ _ _ _ _ _ _ _ Hf Hp Hps E)
      as (s1 & d1 & p1 & ps1 & -> & Hf1 & Hp1 & Hps1 & Hlen1 & Hsum1).
    destruct (IH _ _ _ _ Hf1 Hp1 Hps1)
      as (s' & d & p' & ps' & Hrun & Hf' & Hp' & Hps' & Hlen' & Hsum').
    exists s', d, p', ps'.
    destruct (run_pledges (Some s1) cs) as [rs db2]. simpl in *.
    repeat split; try done.
    + lia.
    + auto.
Qed.

(** X14: what the handler does with an order id that resolves to nothing:
    when the conversion of line 225 returns, the answer is the 404 of line
    234; when it raises, its exception leaves the handler. The store is
    not written in either case. *)
Lemma pledge_unresolved s order_id qty name email :
  (forall doc, ~ resolves s order_id doc) ->
  match objectid_class order_id with
  | Return _ =>
      pledge_to_shared_order (Some s) order_id qty name email
      = (Raise (HTTPException 404 "Shared order not found"), Some s)
  | Raise e =>
      pledge_to_shared_order (Some s) order_id qty name email
      = (Raise e, Some s)
  end.
Proof.
  intros Hno. unfold pledge_to_shared_order, pledge_body, bind.
  assert (forall doc, fst (lookup_order objectid_class ObjectId order_id s)
                      <> Return (Some doc)) as Hno' by exact Hno.
  revert Hno'.
  unfold lookup_order, primary_lookup, fallback_lookup, bind, lift,
    db_find_one, try_except, ret.
  destruct (objectid_class order_id) as [oid|e]; simpl; [|done].
  destruct (find_one _ [("_id", oid)]) as [[|kv d]|] eqn:E1; simpl.
  - apply find_one_has_id in E1. discriminate.
  - intros H. by destruct (H (kv :: d)).
  - destruct (ObjectId order_id) as [oid'|e']; simpl; [|done].
    destruct (find_one _ [("_id", oid')]) as [[|kv d]|] eqn:E2; simpl; try done.
    intros H. by destruct (H (kv :: d)).
Qed.

End LedgerProperties.

(** ** Two pledges at once *)

Lemma matches_id_get v d d' :
  dict_get "_id" d = dict_get "_id" d' ->
  matches [("_id", v)] d = matches [("_id", v)] d'.
Proof. unfold matches. simpl. by intros ->. Qed.

Lemma find_index_ids c c' v :
  ids c = ids c' -> find_index c [("_id", v)] = find_index c' [("_id", v)].
Proof.
  revert c'. induction c as [|d c IH]; intros [|d' c']; try done.
  intros H. unfold ids in H. simpl in H. injection H as Hd Hc.
  cbn [find_index]. rewrite (matches_id_get v d d' Hd). by rewrite (IH c' Hc).
Qed.

Lemma ids_insert c i d d' :
  c !! i = Some d -> dict_get "_id" d' = dict_get "_id" d ->
  ids (<[i := d']> c) = ids c.
Proof.
  intros Hl Hd. unfold ids. rewrite list_fmap_insert.
  apply list_insert_id. by rewrite list_lookup_fmap, Hl, Hd.
Qed.

Section InterleavingFacts.

Variable objectid_class : string -> result value.
Variable ObjectId : string -> result value.
Variable str : value -> string.

Local Abbreviation resolves := (resolves objectid_class ObjectId).
Local Abbreviation handler_step := (handler_step objectid_class ObjectId str).

(** The starting store, the order both requests are for, and its [_id]. *)
Variable s0 : database.
Variable doc0 : document.
Variable id : value.
Hypothesis Hid0 : dict_get "_id" doc0 = Some id.

Local Abbreviation order_in := (order_in s0 id).
Local Abbreviation thread_ok := (thread_ok ObjectId id).

Lemma resolves_cases s order_id doc :
  resolves s order_id doc ->
  exists oid,
    objectid_class order_id = Return oid
    /\ (find_one (coll s "sharedorder") [("_id", oid)] = Some doc
        \/ (find_one (coll s "sharedorder") [("_id", oid)] = None
            /\ exists oid', ObjectId order_id = Return oid'
                 /\ find_one (coll s "sharedorder") [("_id", oid')] = Some doc)).
Proof.
  unfold resolves, lookup_order, primary_lookup, fallback_lookup, bind, lift,
    db_find_one, try_except, ret.
  destruct (objectid_class order_id) as [oid|e]; simpl; [|discriminate].
  intros H. exists oid. split; [done|]. revert H.
  destruct (find_one _ [("_id", oid)]) as [d|] eqn:E1; simpl.
  - destruct d as [|kv d]; simpl.
    + apply find_one_has_id in E1. discriminate.
    + intros [= <-]. by left.
  - destruct (ObjectId order_id) as [oid'|e']; simpl; [|discriminate].
    intros [= H]. right. split; [done|]. by exists oid'.
Qed.

Lemma order_in_find s i d :
  order_in s i d ->
  find_one (coll s "sharedorder") [("_id", id)] = Some d
  /\ dict_get "_id" d = Some id.
Proof.
  intros (Hi & Hl & _).
  assert (find_one (coll s "sharedorder") [("_id", id)] = Some d) as Hf
    by by apply find_one_of_index with i.
  split; [done|]. by apply find_one_has_id in Hf.
Qed.

Lemma order_in_update s i d d' :
  order_in s i d -> dict_get "_id" d' = dict_get "_id" d ->
  order_in (<["sharedorder" := <[i := d']> (coll s "sharedorder")]> s) i d'.
Proof.
  intros Ho Hd. pose proof (order_in_find _ _ _ Ho) as [_ Hidd].
  destruct Ho as (Hi & Hl & Hids).
  unfold order_in. rewrite coll_insert. repeat split.
  - apply find_index_insert; [done|]. apply matches_id. by rewrite Hd.
  - apply list_lookup_insert_eq. by apply lookup_lt_Some with d.
  - by rewrite (ids_insert _ _ d).
Qed.

(** One step of a handler for the order, on a store that holds the order
    with [P] pledged and the participants [L]: the handler moves on, and
    either the store is as before or this was the handler's update. *)
Lemma handler_step_ok r p s i d P L :
  resolves s0 (r_order_id r) doc0 ->
  thread_ok r p ->
  order_in s i d ->
  dict_get "pledged_qty" d = Some (VInt P) ->
  dict_get "participants" d = Some (VList L) ->
  exists p',
    thread_ok r p'
    /\ (rank p' <= rank p - 1)%nat
    /\ ((handler_step r p s = (p', s) /\ updated p' = updated p)
        \/ (updated p = false /\ updated p' = true
            /\ handler_step r p s
               = (p', <["sharedorder" :=
                          <[i := pledged_doc d P L (r_qty r) (r_name r) (r_email r)]>
                            (coll s "sharedorder")]> s))).
Proof.
  intros Hres Hok Ho HP HL.
  pose proof (order_in_find _ _ _ Ho) as [Hf Hidd].
  destruct Ho as (Hi & Hl & Hids).
  assert (exists kv d', d = kv :: d') as (kv & d' & Hd).
  { destruct d; [discriminate|]. eauto. }
  destruct p as [| |d1|d1|x]; simpl in Hok.
  - apply resolves_cases in Hres as (oid & Hoc & [Hp|(Hp & oid' & Hoc' & Hp')]).
    + apply find_one_has_id in Hp. rewrite Hid0 in Hp. injection Hp as <-.
      exists (AtUpdate d). split; [done|]. split; [simpl; lia|]. left.
      split; [|done]. simpl.
      unfold primary_lookup, bind, lift, db_find_one. rewrite Hoc. simpl.
      rewrite Hf. by subst d.
    + apply find_one_has_id in Hp'. rewrite Hid0 in Hp'. injection Hp' as <-.
      exists AtFallback. split; [done|]. split; [simpl; lia|]. left.
      split; [|done]. simpl.
      unfold primary_lookup, bind, lift, db_find_one. rewrite Hoc. simpl.
      apply find_one_None_index in Hp.
      rewrite <- (find_index_ids _ _ oid Hids) in Hp.
      apply find_one_None_index in Hp. by rewrite Hp.
  - exists (AtUpdate d). split; [done|]. split; [simpl; lia|]. left.
    split; [|done]. simpl.
    unfold fallback_lookup, try_except, bind, lift, db_find_one.
    rewrite Hok. simpl. rewrite Hf. by subst d.
  - exists (AtReread d1). split; [done|]. split; [simpl; lia|]. right.
    split; [done|]. split; [done|]. simpl.
    unfold record_pledge, bind, lift, getitem, db_update_one.
    rewrite Hok. simpl. rewrite Hf.
    rewrite (update_one_found _ _ _ _ _ Hi Hl), apply_pledge_update.
    unfold int_field, list_field. rewrite HP, HL. done.
  - exists (Done (Return (expose_id str d))). split; [done|].
    split; [simpl; lia|]. left. split; [|done]. simpl.
    unfold read_back, bind, lift, getitem, db_find_one.
    rewrite Hok. simpl. by rewrite Hf.
  - exists (Done x). split; [done|]. split; [simpl; lia|]. by left.
Qed.

(** The two requests, for the same order, which starts with [p] pledged
    and the participants [ps]. *)
Variable r1 r2 : request.
Variable p : Z.
Variable ps : list value.
Hypothesis Hres1 : resolves s0 (r_order_id r1) doc0.
Hypothesis Hres2 : resolves s0 (r_order_id r2) doc0.
Hypothesis Hp0 : dict_get "pledged_qty" doc0 = Some (VInt p).
Hypothesis Hps0 : dict_get "participants" doc0 = Some (VList ps).

Local Abbreviation sched_step := (sched_step objectid_class ObjectId str r1 r2).
Local Abbreviation run_sched := (run_sched objectid_class ObjectId str r1 r2).
Local Abbreviation Inv := (Inv ObjectId s0 id r1 r2 p ps).

Lemma Inv_init : Inv {| store := s0; pc1 := AtLookup; pc2 := AtLookup |}.
Proof.
  destruct (lookup_order_found _ _ _ _ _ Hres1) as (id' & Hid' & Hf).
  rewrite Hid0 in Hid'. injection Hid' as <-.
  destruct (find_one_index _ _ _ Hf) as (i & Hi & Hl & _).
  exists i, doc0, []. simpl. rewrite app_nil_r, !Z.add_0_r.
  repeat split; done.
Qed.

Lemma sched_step_Inv b c :
  Inv c ->
  Inv (sched_step b c)
  /\ (rank (pc1 (sched_step b c)) <= rank (pc1 c) - (if b then 1 else 0))%nat
  /\ (rank (pc2 (sched_step b c)) <= rank (pc2 c) - (if b then 0 else 1))%nat.
Proof.
  intros (i & d & l & Ho & HP & HL & Hperm & Hok1 & Hok2).
  destruct c as [s q1 q2]. simpl in *. destruct b; unfold sched_step; simpl.
  - destruct (handler_step_ok r1 q1 s i d _ _ Hres1 Hok1 Ho HP HL)
      as (q1' & Hok1' & Hrank & [[Hstep Hu]|(Hu & Hu' & Hstep)]);
      rewrite Hstep; simpl; (split; [|lia]).
    + exists i, d, l. simpl. rewrite Hu. done.
    + eexists i, _, (l ++ [entry r1]). simpl.
      split. { apply order_in_update with d; [done|]. by rewrite pledged_doc_other. }
      rewrite Hu in *. rewrite Hu'.
      split. { rewrite pledged_doc_pledged_qty. do 2 f_equal. lia. }
      split. { rewrite pledged_doc_participants, <- app_assoc. done. }
      split; [|done]. simpl in *. rewrite Hperm.
      symmetry. apply Permutation_cons_append.
  - destruct (handler_step_ok r2 q2 s i d _ _ Hres2 Hok2 Ho HP HL)
      as (q2' & Hok2' & Hrank & [[Hstep Hu]|(Hu & Hu' & Hstep)]);
      rewrite Hstep; simpl; (split; [|lia]).
    + exists i, d, l. simpl. rewrite Hu. done.
    + eexists i, _, (l ++ [entry r2]). simpl.
      split. { apply order_in_update with d; [done|]. by rewrite pledged_doc_other. }
      rewrite Hu in *. rewrite Hu'.
      split. { rewrite pledged_doc_pledged_qty. do 2 f_equal. lia. }
      split. { rewrite pledged_doc_participants, <- app_assoc. done. }
      split; [|done]. rewrite app_nil_r in Hperm. by rewrite Hperm.
Qed.

Lemma run_sched_Inv sched c :
  Inv c ->
  Inv (run_sched sched c)
  /\ (rank (pc1 (run_sched sched c)) <= rank (pc1 c) - turns true sched)%nat
  /\ (rank (pc2 (run_sched sched c)) <= rank (pc2 c) - turns false sched)%nat.
Proof.
  revert c. induction sched as [|b sched IH]; intros c Hc; simpl.
  - repeat split; [done|lia|lia].
  - destruct (sched_step_Inv b c Hc) as (Hc' & H1 & H2).
    destruct (IH _ Hc') as (Hc'' & H1' & H2').
    split; [done|]. destruct b; simpl in *; lia.
Qed.

(** Whatever the interleaving, once each handler has had its four turns
    both have answered with the order, and the store holds the order with
    both quantities added and both records appended, one after the
    other. *)
Lemma interleaved_pledges sched :
  (4 <= turns true sched)%nat ->
  (4 <= turns false sched)%nat ->
  let c := run_sched sched {| store := s0; pc1 := AtLookup; pc2 := AtLookup |} in
  exists d ps' x1 x2,
    pc1 c = Done (Return x1)
    /\ pc2 c = Done (Return x2)
    /\ find_one (coll (store c) "sharedorder") [("_id", id)] = Some d
    /\ dict_get "pledged_qty" d = Some (VInt (p + r_qty r1 + r_qty r2))
    /\ dict_get "participants" d = Some (VList ps')
    /\ (ps' = ps ++ [entry r1; entry r2] \/ ps' = ps ++ [entry r2; entry r1]).
Proof.
  intros Ht1 Ht2 c.
  destruct (run_sched_Inv sched _ Inv_init) as (HI & H1 & H2).
  fold c in HI, H1, H2. simpl in H1, H2.
  destruct HI as (i & d & l & Ho & HP & HL & Hperm & Hok1 & Hok2).
  destruct (pc1 c) as [| | | |[x1|e1]] eqn:E1; simpl in H1, Hok1; try lia;
    try discriminate.
  destruct (pc2 c) as [| | | |[x2|e2]] eqn:E2; simpl in H2, Hok2; try lia;
    try discriminate.
  simpl in *. exists d, (ps ++ l), x1, x2.
  destruct (order_in_find _ _ _ Ho) as [Hf _].
  repeat split; try done.
  symmetry in Hperm. apply Permutation_length_2_inv in Hperm as [->| ->]; auto.
Qed.

(** X15: whatever the interleaving and however far it got, the stored order is
    never seen with an increment that lacks its record or a record that
    lacks its increment: [pledged_qty] is [p] plus the quantities of the
    records appended so far. *)
Lemma interleaved_pledges_never_torn sched :
  let c := run_sched sched {| store := s0; pc1 := AtLookup; pc2 := AtLookup |} in
  exists d l t,
    find_one (coll (store c) "sharedorder") [("_id", id)] = Some d
    /\ dict_get "participants" d = Some (VList (ps ++ l))
    /\ sum_qty l = Some t
    /\ dict_get "pledged_qty" d = Some (VInt (p + t)).
Proof.
  intros c.
  destruct (run_sched_Inv sched _ Inv_init) as (HI & _ & _). fold c in HI.
  destruct HI as (i & d & l & Ho & HP & HL & Hperm & _ & _).
  destruct (order_in_find _ _ _ Ho) as [Hf _].
  exists d, l. rewrite HP.
  destruct (updated (pc1 c)), (updated (pc2 c)); simpl in Hperm.
  - symmetry in Hperm.
    apply Permutation_length_2_inv in Hperm as [-> | ->]; eexists;
      (split; [done|]; split; [done|]; split; [reflexivity|]);
      do 2 f_equal; lia.
  - apply Permutation_singleton_r in Hperm as ->. eexists.
    split; [done|]. split; [done|]. split; [reflexivity|]. do 2 f_equal; lia.
  - apply Permutation_singleton_r in Hperm as ->. eexists.
    split; [done|]. split; [done|]. split; [reflexivity|]. do 2 f_equal; lia.
  - apply Permutation_nil_r in Hperm as ->. eexists.
    split; [done|]. split; [done|]. split; [reflexivity|]. do 2 f_equal; lia.
Qed.

End InterleavingFacts.

(** Where the look-up of lines 225 to 232 returns the order for both:
    two pledge handlers for the same order, one of [qty = 10] and one
    of [qty = 20], on an order with nothing pledged: however their steps
    interleave, once both have had their turns both have answered, and the
    stored order has [pledged_qty = 30] and both participant records, one
    after the other in either order. Each handler changes the store in one
    step only, the single update request of line 235 that carries both the
    increment and the append. *)
Theorem concurrent_pledges_10_20
    (objectid_class ObjectId : string -> result value) (str : value -> string)
    (s : database) (r1 r2 : request) (doc : document) (id : value)
    (ps : list value) (sched : list bool) :
  resolves objectid_class ObjectId s (r_order_id r1) doc ->
  resolves objectid_class ObjectId s (r_order_id r2) doc ->
  dict_get "_id" doc = Some id ->
  dict_get "pledged_qty" doc = Some (VInt 0) ->
  dict_get "participants" doc = Some (VList ps) ->
  r_qty r1 = 10 ->
  r_qty r2 = 20 ->
  (4 <= turns true sched)%nat ->
  (4 <= turns false sched)%nat ->
  let c := run_sched objectid_class ObjectId str r1 r2 sched
             {| store := s; pc1 := AtLookup; pc2 := AtLookup |} in
  exists d ps' x1 x2,
    pc1 c = Done (Return x1)
    /\ pc2 c = Done (Return x2)
    /\ find_one (coll (store c) "sharedorder") [("_id", id)] = Some d
    /\ dict_get "pledged_qty" d = Some (VInt 30)
    /\ dict_get "participants" d = Some (VList ps')
    /\ (ps' = ps ++ [entry r1; entry r2] \/ ps' = ps ++ [entry r2; entry r1]).
Proof.
  intros H1 H2 Hid Hp Hps Hq1 Hq2 Ht1 Ht2.
  pose proof (interleaved_pledges objectid_class ObjectId str s doc id Hid
                r1 r2 0 ps H1 H2 Hp Hps sched Ht1 Ht2) as H.
  rewrite Hq1, Hq2 in H. exact H.
Qed.

(** ** The properties on the demo data *)

Lemma concurrent_pledges_10_20_witness :
  let c := run_sched Demo.ObjectId Demo.ObjectId Demo.str
             Demo.request_10 Demo.request_20 Demo.some_schedule
             {| store := Demo.with_new_order; pc1 := AtLookup; pc2 := AtLookup |} in
  exists d ps',
    find_one (coll (store c) "sharedorder") [("_id", VOid Demo.id_3)] = Some d
    /\ dict_get "pledged_qty" d = Some (VInt 30)
    /\ dict_get "participants" d = Some (VList ps')
    /\ length ps' = 2%nat.
Proof.
  intros c.
  assert (resolves Demo.ObjectId Demo.ObjectId Demo.with_new_order Demo.id_3
            Demo.order_3) as H1 by (vm_compute; reflexivity).
  assert (4 <= turns true Demo.some_schedule)%nat as Ht1 by (simpl; lia).
  assert (4 <= turns false Demo.some_schedule)%nat as Ht2 by (simpl; lia).
  pose proof (concurrent_pledges_10_20 Demo.ObjectId Demo.ObjectId Demo.str
              Demo.with_new_order Demo.request_10 Demo.request_20 Demo.order_3
              (VOid Demo.id_3) [] Demo.some_schedule H1 H1 eq_refl eq_refl eq_refl
              eq_refl eq_refl Ht1 Ht2) as H.
  destruct H as (d & ps' & x1 & x2 & _ & _ & Hf & Hp & Hps & Hor).
  exists d, ps'. split; [exact Hf|]. split; [exact Hp|]. split; [exact Hps|].
  destruct Hor as [-> | ->]; reflexivity.
Defined.

(** C3: an order id that resolves to nothing is not always answered with
    404. On the demo data, the id [not-an-object-id] makes the conversion of
    line 225 raise, outside the [try] that guards the same conversion in
    the fallback: the exception leaves the handler and the client gets a
    500, with [bson.ObjectId] as the converter ([InvalidId]) as well as
    with the driver's default document class ([AttributeError]). The store
    is left as it was. *)
Theorem pledge_malformed_order_id_not_404 :
  (forall doc,
      ~ resolves Demo.ObjectId Demo.ObjectId Demo.seeded "not-an-object-id" doc)
  /\ post_pledge Demo.ObjectId Demo.ObjectId Demo.str (Some Demo.seeded)
       "not-an-object-id" (Demo.query 5 None None)
     = (Raise (PyError "InvalidId"), Some Demo.seeded)
  /\ status_of (fst (post_pledge Demo.ObjectId Demo.ObjectId Demo.str
                       (Some Demo.seeded) "not-an-object-id"
                       (Demo.query 5 None None))) = 500
  /\ post_pledge Demo.objectid_class_default Demo.ObjectId Demo.str
       (Some Demo.seeded) "not-an-object-id" (Demo.query 5 None None)
     = (Raise (PyError "AttributeError"), Some Demo.seeded)
  /\ post_pledge Demo.ObjectId Demo.ObjectId Demo.str (Some Demo.seeded)
       "65a0000000000000000000ff" (Demo.query 5 None None)
     = (Raise (HTTPException 404 "Shared order not found"), Some Demo.seeded).
Proof.
  split; [|split; [|split; [|split]]]; try reflexivity.
  intros doc H. vm_compute in H. discriminate.
Qed.

Lemma pledge_returns_updated_order_witness :
  resolves Demo.ObjectId Demo.ObjectId Demo.seeded Demo.id_2 Demo.order_2
  /\ is_SharedOrder Demo.order_2 = true
  /\ exists doc' s',
       post_pledge Demo.ObjectId Demo.ObjectId Demo.str (Some Demo.seeded)
         Demo.id_2 (Demo.query 50 (Some "NewBuyer") None)
       = (Return (expose_id Demo.str doc'), Some s')
       /\ find_one (coll s' "sharedorder") [("_id", VOid Demo.id_2)] = Some doc'
       /\ dict_get "pledged_qty" doc' = Some (VInt 510).
Proof.
  split; [reflexivity|]. split; [reflexivity|].
  destruct (pledge_returns_updated_order Demo.ObjectId Demo.ObjectId Demo.str
              Demo.seeded Demo.id_2 Demo.order_2 50 (Some "NewBuyer") None
              eq_refl eq_refl ltac:(lia))
    as (id & p & ps & doc' & s' & Hid & Hp & Hps & Hpost & Hf & Hp' & _).
  injection Hid as <-. injection Hp as <-.
  exists doc', s'. repeat split; assumption.
Defined.

Lemma pledge_rejects_nonpositive_qty_witness :
  post_pledge Demo.ObjectId Demo.ObjectId Demo.str (Some Demo.seeded) Demo.id_2
    (Demo.query 0 (Some "NewBuyer") None)
  = (Raise RequestValidationError, Some Demo.seeded).
Proof.
  apply (pledge_rejects_nonpositive_qty Demo.ObjectId Demo.ObjectId Demo.str
           (Some Demo.seeded) Demo.id_2 0 (Some "NewBuyer") None).
  lia.
Defined.

Lemma pledge_frame_witness :
  exists r db' s' i doc doc' new,
    pledge_to_shared_order Demo.ObjectId Demo.ObjectId Demo.str (Some Demo.seeded)
      Demo.id_2 50 "NewBuyer" None = (Return r, db')
    /\ db' = Some s'
    /\ resolves Demo.ObjectId Demo.ObjectId Demo.seeded Demo.id_2 doc
    /\ dict_get "_id" doc = Some (VOid Demo.id_2)
    /\ coll Demo.seeded "sharedorder" !! i = Some doc
    /\ coll s' "sharedorder" !! i = Some doc'
    /\ r = expose_id Demo.str doc'
    /\ dict_get "min_qty" doc' = dict_get "min_qty" doc
    /\ dict_get "pledged_qty" doc' = Some (VInt 510)
    /\ last (match dict_get "participants" doc' with
             | Some (VList l) => l
             | _ => []
             end) = Some (VDict new)
    /\ dict_get "name" new = Some (VStr "NewBuyer")
    /\ (forall j, j <> i ->
          coll s' "sharedorder" !! j = coll Demo.seeded "sharedorder" !! j).
Proof.
  eassert (pledge_to_shared_order Demo.ObjectId Demo.ObjectId Demo.str
             (Some Demo.seeded) Demo.id_2 50 "NewBuyer" None = (Return _, _)) as E
    by reflexivity.
  destruct (pledge_frame _ _ _ _ _ _ _ _ _ _ E)
    as (s' & i & id & doc & doc' & p & ps & ps' & new & Hdb & Hres & Hid & _
        & Hi & Hl & Hl' & Hr & _ & _ & _ & Hmin & _ & _ & _ & Hp & Hp' & _ & Hps'
        & Hnew & _ & Hname & _ & _ & _ & _ & _ & Hother & _).
  assert (doc = Demo.order_2) as Hdoc.
  { vm_compute in Hres. by injection Hres as <-. }
  eexists _, _, s', i, doc, doc', new. split; [exact E|].
  split; [exact Hdb|]. split; [exact Hres|].
  split. { rewrite Hdoc. reflexivity. }
  split; [exact Hl|]. split; [exact Hl'|]. split; [exact Hr|].
  split; [exact Hmin|].
  split. { rewrite Hp'. rewrite Hdoc in Hp. vm_compute in Hp.
           by injection Hp as <-. }
  split. { rewrite Hps', Hnew. apply last_snoc. }
  split; [exact Hname|exact Hother].
Defined.

Lemma pledge_default_name_witness :
  exists r db' ps e,
    post_pledge Demo.ObjectId Demo.ObjectId Demo.str (Some Demo.seeded)
      Demo.id_2 (Demo.query 50 None None) = (Return r, db')
    /\ dict_get "participants" r = Some (VList (ps ++ [VDict e]))
    /\ dict_get "name" e = Some (VStr "Guest").
Proof.
  eassert (post_pledge Demo.ObjectId Demo.ObjectId Demo.str (Some Demo.seeded)
             Demo.id_2 (Demo.query 50 None None) = (Return _, _)) as E
    by reflexivity.
  destruct (pledge_default_name _ _ _ _ _ _ _ _ _ E)
    as (s' & i & doc' & ps & e & _ & _ & _ & _ & Hps & Hname).
  eexists _, _, ps, e. split; [exact E|]. split; assumption.
Defined.

Lemma pledge_participant_shape_witness :
  exists r db' ps e,
    post_pledge Demo.ObjectId Demo.ObjectId Demo.str (Some Demo.seeded)
      Demo.id_2 (Demo.query 50 (Some "NewBuyer") None) = (Return r, db')
    /\ dict_get "participants" r = Some (VList (ps ++ [VDict e]))
    /\ dict_keys e = ["name"; "email"; "qty"]
    /\ dict_get "email" e = Some VNone.
Proof.
  eassert (post_pledge Demo.ObjectId Demo.ObjectId Demo.str (Some Demo.seeded)
             Demo.id_2 (Demo.query 50 (Some "NewBuyer") None) = (Return _, _)) as E
    by reflexivity.
  destruct (pledge_participant_shape _ _ _ _ _ _ _ _ E)
    as (s' & i & doc' & ps & e & _ & _ & _ & Hps & Hkeys & Hemail).
  eexists _, _, ps, e. split; [exact E|]. repeat split; try assumption.
  apply Hemail. reflexivity.
Defined.

Lemma pledge_scenario_newbuyer_witness :
  resolves Demo.ObjectId Demo.ObjectId Demo.seeded Demo.id_2 Demo.order_2
  /\ exists res db' ps new,
       post_pledge Demo.ObjectId Demo.ObjectId Demo.str (Some Demo.seeded)
         Demo.id_2 (Demo.query 50 (Some "NewBuyer") None) = (Return res, db')
       /\ dict_get "pledged_qty" res = Some (VInt 510)
       /\ dict_get "participants" res = Some (VList ps)
       /\ length ps = 3%nat
       /\ last ps = Some (VDict new)
       /\ dict_get "name" new = Some (VStr "NewBuyer")
       /\ dict_get "qty" new = Some (VInt 50).
Proof.
  split; [reflexivity|].
  destruct (pledge_scenario_newbuyer Demo.ObjectId Demo.ObjectId Demo.str
              Demo.seeded Demo.id_2 Demo.order_2 (VStr "gym@example.com")
              (VStr "fashion@example.com") None eq_refl eq_refl eq_refl eq_refl)
    as (res & db' & ps & new & Hpost & _ & Hp & Hps & Hlen & Hlast & Hname & Hqty).
  exists res, db', ps, new. repeat split; assumption.
Defined.

(** ** More on sequences of pledges *)

Lemma is_SharedOrder_pledged_doc doc p ps qty name email :
  is_SharedOrder doc = true ->
  dict_get "pledged_qty" doc = Some (VInt p) ->
  dict_get "participants" doc = Some (VList ps) ->
  0 <= qty ->
  is_SharedOrder (pledged_doc doc p ps qty name email) = true.
Proof.
  intros Hs Hp Hps Hq. unfold is_SharedOrder in *.
  rewrite pledged_doc_other by done.
  destruct (dict_get "product_id" doc) as [[]|]; try discriminate.
  rewrite pledged_doc_other by done.
  destruct (dict_get "supplier_id" doc) as [[]|]; try discriminate.
  rewrite pledged_doc_other by done.
  destruct (dict_get "min_qty" doc) as [[| |m| | | | |]|]; try discriminate.
  rewrite pledged_doc_pledged_qty. rewrite Hp in Hs.
  rewrite pledged_doc_other by done.
  destruct (dict_get "deadline" doc) as [[]|]; try discriminate.
  rewrite pledged_doc_participants. rewrite Hps in Hs.
  apply andb_prop in Hs as [Hs Hall]. apply andb_prop in Hs as [Hm Hp0].
  rewrite Hm, forallb_app, Hall. simpl.
  apply Z.leb_le in Hp0. rewrite andb_true_r. apply Z.leb_le. lia.
Qed.

Lemma consistent_pledged_doc doc p ps qty name email :
  consistent doc ->
  dict_get "pledged_qty" doc = Some (VInt p) ->
  dict_get "participants" doc = Some (VList ps) ->
  consistent (pledged_doc doc p ps qty name email).
Proof.
  intros (p0 & ps0 & Hp0 & Hps0 & Hsum) Hp Hps.
  rewrite Hp in Hp0. rewrite Hps in Hps0.
  injection Hp0 as <-. injection Hps0 as <-.
  exists (p + qty), (ps ++ [participant name email qty]).
  rewrite pledged_doc_pledged_qty, pledged_doc_participants, sum_qty_snoc, Hsum.
  done.
Qed.

Lemma sum_qty_app l1 l2 :
  sum_qty (l1 ++ l2) = (a ← sum_qty l1; b ← sum_qty l2; Some (a + b)).
Proof.
  induction l1 as [|x l1 IH]; simpl.
  - destruct (sum_qty l2); simpl; [|done]. f_equal.
  - destruct (qty_of x) as [q|]; simpl; [|done]. rewrite IH.
    destruct (sum_qty l1) as [a|]; simpl; [|done].
    destruct (sum_qty l2) as [b|]; simpl; [|done]. f_equal. lia.
Qed.

Section MoreLedgerProperties.

Variable objectid_class : string -> result value.
Variable ObjectId : string -> result value.
Variable str : value -> string.

Local Abbreviation expose_id := (expose_id str).
Local Abbreviation resolves := (resolves objectid_class ObjectId).
Local Abbreviation pledge_body := (pledge_body objectid_class ObjectId str).
Local Abbreviation pledge_to_shared_order :=
  (pledge_to_shared_order objectid_class ObjectId str).
Local Abbreviation post_pledge := (post_pledge objectid_class ObjectId str).
Local Abbreviation run_pledges := (run_pledges objectid_class ObjectId str).
Local Abbreviation pledges_on := (pledges_on objectid_class ObjectId).
Local Abbreviation pledged_entries :=
  (pledged_entries objectid_class ObjectId str).

(** One request through the route: refused or failed with the store as it
    was, or accepted with one stored order replaced. *)
Lemma post_pledge_step s order_id q r db' :
  post_pledge (Some s) order_id q = (r, db') ->
  (is_return r = false /\ db' = Some s)
  \/ (exists doc id i p ps qty,
        q_qty q = Some qty /\ 1 <= qty
        /\ resolves s order_id doc
        /\ dict_get "_id" doc = Some id
        /\ find_index (coll s "sharedorder") [("_id", id)] = Some i
        /\ coll s "sharedorder" !! i = Some doc
        /\ int_field "pledged_qty" doc = Some p
        /\ list_field "participants" doc = Some ps
        /\ r = Return (expose_id (pledged_doc doc p ps qty
                                   (default "Guest" (q_name q)) (q_email q)))
        /\ db' = Some (<["sharedorder" :=
                          <[i := pledged_doc doc p ps qty
                                   (default "Guest" (q_name q)) (q_email q)]>
                            (coll s "sharedorder")]> s)).
Proof.
  intros H. destruct r as [r|e].
  - right. apply post_pledge_returns in H as (qty & Hq & Hge & H).
    apply pledge_returns in H
      as (doc & id & i & p & ps & Hr & Hid & Hi & Hl & Hp & Hps & -> & ->).
    exists doc, id, i, p, ps, qty. done.
  - left. apply post_pledge_raises in H. done.
Qed.

(** X1: when every stored shared order validates against the
    [SharedOrder] schema and has [pledged_qty] equal to the sum of its
    participants' [qty], this is still so after any sequence of pledge
    requests through the route. *)
Theorem pledges_keep_orders_sound s calls :
  Forall sound_order (coll s "sharedorder") ->
  exists s',
    snd (run_pledges (Some s) calls) = Some s'
    /\ Forall sound_order (coll s' "sharedorder").
Proof.
  revert s. induction calls as [|c cs IH]; intros s Hall; simpl.
  - by exists s.
  - destruct (post_pledge (Some s) (c_order_id c) (c_query c)) as [r db1] eqn:E.
    apply post_pledge_step in E
      as [[_ ->]|(doc & id & i & p & ps & qty & Hq & Hge & Hr & Hid & Hi & Hl
                  & Hp & Hps & -> & ->)].
    + destruct (IH s Hall) as (s' & Hrun & Hall'). exists s'.
      by destruct (run_pledges (Some s) cs).
    + assert (sound_order doc) as [Hschema Hcons].
      { rewrite Forall_lookup in Hall. by apply (Hall i). }
      destruct (schema_fields _ Hschema) as (p0 & ps0 & Hp0 & Hps0 & _).
      unfold int_field in Hp. rewrite Hp0 in Hp. injection Hp as <-.
      unfold list_field in Hps. rewrite Hps0 in Hps. injection Hps as <-.
      match goal with
      | |- context [run_pledges (Some ?s1) cs] =>
          destruct (IH s1) as (s' & Hrun & Hall')
      end.
      { rewrite coll_insert. apply Forall_insert; [done|]. split.
        - apply is_SharedOrder_pledged_doc; try done. lia.
        - by apply consistent_pledged_doc. }
      exists s'. by destruct (run_pledges _ cs).
Qed.

(** X2: a sequence of pledge requests never adds or removes a shared
    order and never changes an [_id]: the collection keeps its identifiers,
    position by position, and every other collection is as it was. *)
Theorem pledges_keep_documents s calls :
  exists s',
    snd (run_pledges (Some s) calls) = Some s'
    /\ ids (coll s' "sharedorder") = ids (coll s "sharedorder")
    /\ length (coll s' "sharedorder") = length (coll s "sharedorder")
    /\ forall c, c <> "sharedorder" -> s' !! c = s !! c.
Proof.
  revert s. induction calls as [|c cs IH]; intros s; simpl.
  - by exists s.
  - destruct (post_pledge (Some s) (c_order_id c) (c_query c)) as [r db1] eqn:E.
    apply post_pledge_step in E
      as [[_ ->]|(doc & id & i & p & ps & qty & Hq & Hge & Hr & Hid & Hi & Hl
                  & Hp & Hps & -> & ->)].
    + destruct (IH s) as (s' & Hrun & H). exists s'.
      by destruct (run_pledges (Some s) cs).
    + match goal with
      | |- context [run_pledges (Some ?s1) cs] =>
          destruct (IH s1) as (s' & Hrun & Hids & Hlen & Hother)
      end.
      exists s'. destruct (run_pledges _ cs) as [rs db2]. simpl in *.
      split; [done|]. rewrite coll_insert in Hids, Hlen.
      split. { rewrite Hids. apply ids_insert with doc; [done|].
               by rewrite pledged_doc_other. }
      split. { by rewrite Hlen, length_insert. }
      intros c' Hc'. rewrite (Hother c' Hc'). by apply lookup_insert_ne.
Qed.

(** X3: a pledge request that is answered with an error, whichever it is
    (a refused [qty], no database, an order that is not found, an exception
    of the look-up, an update the store refuses), leaves the database as it
    was. *)
Theorem pledge_error_writes_nothing db order_id q e db' :
  post_pledge db order_id q = (Raise e, db') -> db' = db.
Proof.
  destruct db as [s|].
  - apply post_pledge_raises.
  - unfold post_pledge, pledge_to_shared_order.
    destruct (q_qty q) as [qty|]; [|by intros [= _ <-]].
    destruct (qty <? 1); by intros [= _ <-].
Qed.

(** One request, seen from the order stored under [id]: what it appends
    to the order and adds to its [pledged_qty]. *)
Lemma post_pledge_appends s c id d0 p ps r db' :
  find_one (coll s "sharedorder") [("_id", id)] = Some d0 ->
  dict_get "pledged_qty" d0 = Some (VInt p) ->
  dict_get "participants" d0 = Some (VList ps) ->
  post_pledge (Some s) (c_order_id c) (c_query c) = (r, db') ->
  exists s' d t,
    db' = Some s'
    /\ find_one (coll s' "sharedorder") [("_id", id)] = Some d
    /\ dict_get "participants" d
       = Some (VList (ps ++ pledged_entries id (Some s) [c]))
    /\ sum_qty (pledged_entries id (Some s) [c]) = Some t
    /\ Z.of_nat (length (pledged_entries id (Some s) [c])) <= t
    /\ dict_get "pledged_qty" d = Some (VInt (p + t)).
Proof.
  intros Hf Hp Hps H. simpl. rewrite H, app_nil_r.
  apply post_pledge_step in H
    as [[Hr ->]|(doc & id1 & i & p1 & ps1 & qty & Hq & Hge & Hr & Hid & Hi & Hl
                 & Hp1 & Hps1 & -> & ->)].
  - rewrite Hr, andb_false_r. exists s, d0, 0. simpl.
    rewrite app_nil_r, Z.add_0_r. done.
  - set (doc' := pledged_doc doc p1 ps1 qty _ _) in *.
    assert (dict_get "_id" doc' = Some id1) as Hid'.
    { unfold doc'. by rewrite pledged_doc_other. }
    unfold pledges_on. unfold resolves in Hr. rewrite Hr, Hid, Hq. simpl.
    eexists _. rewrite coll_insert.
    destruct (value_eqb id1 id) eqn:E; simpl.
    + apply value_eqb_eq in E. subst id1.
      rewrite (find_one_of_index _ _ _ _ Hi Hl) in Hf. injection Hf as ->.
      unfold int_field in Hp1. rewrite Hp in Hp1. injection Hp1 as <-.
      unfold list_field in Hps1. rewrite Hps in Hps1. injection Hps1 as <-.
      exists doc', (qty + 0). split; [reflexivity|]. split.
      { apply find_one_insert; [done|]. by apply matches_id. }
      split; [apply pledged_doc_participants|]. split; [done|].
      split; [lia|]. rewrite Z.add_0_r. apply pledged_doc_pledged_qty.
    + exists d0, 0. split; [reflexivity|]. split.
      { rewrite (find_one_insert_other _ _ _ doc); try done.
        - by apply matches_id_false with id1.
        - by apply matches_id_false with id1. }
      rewrite app_nil_r, Z.add_0_r. done.
Qed.

Lemma pledged_entries_cons id s c cs r db' :
  post_pledge (Some s) (c_order_id c) (c_query c) = (r, db') ->
  pledged_entries id (Some s) (c :: cs)
  = pledged_entries id (Some s) [c] ++ pledged_entries id db' cs.
Proof. intros H. simpl. rewrite H, app_nil_r. done. Qed.

(** X4: after any sequence of pledge requests, the participants of an
    order are the former ones followed by the records of the successful
    pledges on it, in the order of the requests; [pledged_qty] has grown by
    the sum of their quantities, which is at least their number. *)
Theorem pledges_append_in_order s calls id d0 p ps :
  find_one (coll s "sharedorder") [("_id", id)] = Some d0 ->
  dict_get "pledged_qty" d0 = Some (VInt p) ->
  dict_get "participants" d0 = Some (VList ps) ->
  exists s' d t,
    snd (run_pledges (Some s) calls) = Some s'
    /\ find_one (coll s' "sharedorder") [("_id", id)] = Some d
    /\ dict_get "participants" d
       = Some (VList (ps ++ pledged_entries id (Some s) calls))
    /\ sum_qty (pledged_entries id (Some s) calls) = Some t
    /\ dict_get "pledged_qty" d = Some (VInt (p + t))
    /\ Z.of_nat (length (pledged_entries id (Some s) calls)) <= t.
Proof.
  revert s d0 p ps. induction calls as [|c cs IH]; intros s d0 p ps Hf Hp Hps.
  - exists s, d0, 0. simpl. rewrite app_nil_r, Z.add_0_r. done.
  - destruct (post_pledge (Some s) (c_order_id c) (c_query c)) as [r db1] eqn:E.
    rewrite (pledged_entries_cons _ _ _ _ _ _ E).
    destruct (post_pledge_appends _ _ _ _ _ _ _ _ Hf Hp Hps E)
      as (s1 & d1 & t1 & -> & Hf1 & Hps1 & Hsum1 & Hlen1 & Hp1).
    destruct (IH _ _ _ _ Hf1 Hp1 Hps1)
      as (s' & d & t2 & Hrun & Hf' & Hps' & Hsum2 & Hp' & Hlen2).
    exists s', d, (t1 + t2). cbn [run_pledges]. rewrite E.
    destruct (run_pledges (Some s1) cs) as [rs db2]. cbn [snd] in *.
    split; [done|]. split; [done|].
    split. { by rewrite Hps', <- app_assoc. }
    split. { by rewrite sum_qty_app, Hsum1, Hsum2. }
    split. { rewrite Hp'. do 2 f_equal. lia. }
    rewrite length_app. lia.
Qed.

(** Replacing a stored order by a document with the same [_id] does not
    change what a look-up by [_id] finds, unless it found that order. *)
Lemma find_one_insert_stable c j dj dj' idj v :
  c !! j = Some dj ->
  find_index c [("_id", idj)] = Some j ->
  dict_get "_id" dj = Some idj ->
  dict_get "_id" dj' = Some idj ->
  find_one c [("_id", v)] <> Some dj ->
  find_one (<[j := dj']> c) [("_id", v)] = find_one c [("_id", v)].
Proof.
  intros Hl Hj Hid Hid' Hne.
  destruct (value_eqb idj v) eqn:E.
  - apply value_eqb_eq in E. subst v.
    by rewrite (find_one_of_index _ _ _ _ Hj Hl) in Hne.
  - apply find_one_insert_other with dj; [done| |];
      by apply matches_id_false with idj.
Qed.

Lemma resolves_intro s order_id doc oid :
  objectid_class order_id = Return oid ->
  (find_one (coll s "sharedorder") [("_id", oid)] = Some doc
   \/ (find_one (coll s "sharedorder") [("_id", oid)] = None
       /\ exists oid', ObjectId order_id = Return oid'
            /\ find_one (coll s "sharedorder") [("_id", oid')] = Some doc)) ->
  resolves s order_id doc.
Proof.
  intros Hoc H.
  unfold resolves, lookup_order, primary_lookup, fallback_lookup, bind, lift,
    db_find_one, try_except, ret.
  rewrite Hoc. simpl. destruct H as [H|(H & oid' & Hoc' & H')].
  - rewrite H. pose proof (find_one_has_id _ _ _ H) as Hid.
    destruct doc; [discriminate|]. done.
  - rewrite H. simpl. rewrite Hoc'. simpl. by rewrite H'.
Qed.

(** A pledge on one order does not change what another order's id
    resolves to. *)
Lemma resolves_after_pledge s order_id doc j dj dj' idj :
  resolves s order_id doc ->
  coll s "sharedorder" !! j = Some dj ->
  find_index (coll s "sharedorder") [("_id", idj)] = Some j ->
  dict_get "_id" dj = Some idj ->
  dict_get "_id" dj' = Some idj ->
  dict_get "_id" doc <> Some idj ->
  resolves (<["sharedorder" := <[j := dj']> (coll s "sharedorder")]> s)
    order_id doc.
Proof.
  intros Hr Hl Hj Hid Hid' Hne.
  assert (Some doc <> Some dj) as Hdoc by (intros [= ->]; congruence).
  apply resolves_cases in Hr as (oid & Hoc & [H|(H & oid' & Hoc' & H')]);
    apply resolves_intro with oid; try done; rewrite coll_insert.
  - left. rewrite (find_one_insert_stable _ _ dj _ idj); try done.
    by rewrite H.
  - right. split.
    + rewrite (find_one_insert_stable _ _ dj _ idj); try done. by rewrite H.
    + exists oid'. split; [done|].
      rewrite (find_one_insert_stable _ _ dj _ idj); try done. by rewrite H'.
Qed.

(** X5: two pledges on different orders commute: served in either order
    they get the same responses and leave the same store. *)
Theorem pledges_on_distinct_orders_commute
    s oa qa na ea ob qb nb eb da db_ :
  resolves s oa da ->
  resolves s ob db_ ->
  dict_get "_id" da <> dict_get "_id" db_ ->
  let '(ra, s1) := pledge_to_shared_order (Some s) oa qa na ea in
  let '(rb, s2) := pledge_to_shared_order s1 ob qb nb eb in
  let '(rb', t1) := pledge_to_shared_order (Some s) ob qb nb eb in
  let '(ra', t2) := pledge_to_shared_order t1 oa qa na ea in
  ra = ra' /\ rb = rb' /\ s2 = t2.
Proof.
  intros Ha Hb Hne.
  destruct (pledge_body_run objectid_class ObjectId str _ _ _ qa na ea Ha)
    as (ida & i & Hida & Hi & Hli & Hrun_a).
  destruct (pledge_body_run objectid_class ObjectId str _ _ _ qb nb eb Hb)
    as (idb & j & Hidb & Hj & Hlj & Hrun_b).
  assert (i <> j) as Hij by (intros ->; congruence).
  set (c := coll s "sharedorder") in *.
  unfold pledge_to_shared_order at 1 3. rewrite Hrun_a, Hrun_b.
  destruct (apply_update (pledge_update qa na ea) da) as [da'|] eqn:Ea;
    destruct (apply_update (pledge_update qb nb eb) db_) as [db'|] eqn:Eb;
    unfold pledge_to_shared_order.
  - assert (dict_get "_id" da' = Some ida) as Hida'.
    { rewrite apply_pledge_update in Ea.
      destruct (int_field _ da); simpl in Ea; [|discriminate].
      destruct (list_field _ da); simpl in Ea; [|discriminate].
      injection Ea as <-. by rewrite pledged_doc_other. }
    assert (dict_get "_id" db' = Some idb) as Hidb'.
    { rewrite apply_pledge_update in Eb.
      destruct (int_field _ db_); simpl in Eb; [|discriminate].
      destruct (list_field _ db_); simpl in Eb; [|discriminate].
      injection Eb as <-. by rewrite pledged_doc_other. }
    assert (resolves (<["sharedorder" := <[i := da']> c]> s) ob db_) as Hb'.
    { apply resolves_after_pledge with da ida; try done. congruence. }
    assert (resolves (<["sharedorder" := <[j := db']> c]> s) oa da) as Ha'.
    { apply resolves_after_pledge with db_ idb; try done. congruence. }
    destruct (pledge_body_run objectid_class ObjectId str _ _ _ qb nb eb Hb')
      as (idb2 & j2 & Hidb2 & Hj2 & _ & ->).
    destruct (pledge_body_run objectid_class ObjectId str _ _ _ qa na ea Ha')
      as (ida2 & i2 & Hida2 & Hi2 & _ & ->).
    rewrite Ea, Eb, !coll_insert. rewrite coll_insert in Hj2, Hi2.
    rewrite Hidb in Hidb2. injection Hidb2 as <-.
    rewrite Hida in Hida2. injection Hida2 as <-.
    rewrite (find_index_ids _ c) in Hj2
      by (apply ids_insert with da; [done|congruence]).
    rewrite (find_index_ids _ c) in Hi2
      by (apply ids_insert with db_; [done|congruence]).
    fold c in Hi, Hj. rewrite Hj in Hj2. rewrite Hi in Hi2.
    injection Hj2 as <-. injection Hi2 as <-.
    repeat split. rewrite !insert_insert_eq. f_equal. f_equal.
    apply list_insert_insert_ne. congruence.
  - assert (resolves (<["sharedorder" := <[i := da']> c]> s) ob db_) as Hb'.
    { assert (dict_get "_id" da' = Some ida) as Hida'.
      { rewrite apply_pledge_update in Ea.
        destruct (int_field _ da); simpl in Ea; [|discriminate].
        destruct (list_field _ da); simpl in Ea; [|discriminate].
        injection Ea as <-. by rewrite pledged_doc_other. }
      apply resolves_after_pledge with da ida; try done. congruence. }
    destruct (pledge_body_run objectid_class ObjectId str _ _ _ qb nb eb Hb')
      as (? & ? & _ & _ & _ & ->).
    by rewrite ?Hrun_a, ?Hrun_b, ?Ea, ?Eb.
  - assert (resolves (<["sharedorder" := <[j := db']> c]> s) oa da) as Ha'.
    { assert (dict_get "_id" db' = Some idb) as Hidb'.
      { rewrite apply_pledge_update in Eb.
        destruct (int_field _ db_); simpl in Eb; [|discriminate].
        destruct (list_field _ db_); simpl in Eb; [|discriminate].
        injection Eb as <-. by rewrite pledged_doc_other. }
      apply resolves_after_pledge with db_ idb; try done. congruence. }
    destruct (pledge_body_run objectid_class ObjectId str _ _ _ qa na ea Ha')
      as (? & ? & _ & _ & _ & ->).
    by rewrite ?Hrun_a, ?Hrun_b, ?Ea, ?Eb.
  - by rewrite ?Hrun_a, ?Hrun_b, ?Ea, ?Eb.
Qed.

End MoreLedgerProperties.

(** ** A read back that comes late *)

Section LateRead.

Variable objectid_class : string -> result value.
Variable ObjectId : string -> result value.
Variable str : value -> string.

Local Abbreviation handler_step := (handler_step objectid_class ObjectId str).
Local Abbreviation run_sched := (run_sched objectid_class ObjectId str).

Lemma handler_step_lookup r s id d :
  objectid_class (r_order_id r) = Return id ->
  find_one (coll s "sharedorder") [("_id", id)] = Some d ->
  handler_step r AtLookup s = (AtUpdate d, s).
Proof.
  intros Hoc Hf. simpl. unfold primary_lookup, bind, lift, db_find_one.
  rewrite Hoc. simpl. rewrite Hf.
  apply find_one_has_id in Hf. destruct d; [discriminate|]. done.
Qed.

Lemma handler_step_update r s id d0 i d P L :
  dict_get "_id" d0 = Some id ->
  find_index (coll s "sharedorder") [("_id", id)] = Some i ->
  coll s "sharedorder" !! i = Some d ->
  dict_get "pledged_qty" d = Some (VInt P) ->
  dict_get "participants" d = Some (VList L) ->
  handler_step r (AtUpdate d0) s
  = (AtReread d0,
     <["sharedorder" :=
         <[i := pledged_doc d P L (r_qty r) (r_name r) (r_email r)]>
           (coll s "sharedorder")]> s).
Proof.
  intros Hid Hi Hl HP HL. simpl.
  unfold record_pledge, bind, lift, getitem, db_update_one.
  rewrite Hid. simpl. rewrite (find_one_of_index _ _ _ _ Hi Hl).
  rewrite (update_one_found _ _ _ _ _ Hi Hl), apply_pledge_update.
  unfold int_field, list_field. rewrite HP, HL. done.
Qed.

Lemma handler_step_reread r s id d0 d :
  dict_get "_id" d0 = Some id ->
  find_one (coll s "sharedorder") [("_id", id)] = Some d ->
  handler_step r (AtReread d0) s = (Done (Return (expose_id str d)), s).
Proof.
  intros Hid Hf. simpl. unfold read_back, bind, lift, getitem, db_find_one.
  rewrite Hid. simpl. by rewrite Hf.
Qed.

(** X6: the read back of line 236 is a store request of its own. When
    the update of another handler for the same order comes between a
    handler's update and its read back, the handler's response shows both
    pledges, not the order as its own update left it. *)
Theorem late_read_back_shows_both_pledges s r1 r2 doc id p ps :
  objectid_class (r_order_id r1) = Return id ->
  objectid_class (r_order_id r2) = Return id ->
  find_one (coll s "sharedorder") [("_id", id)] = Some doc ->
  dict_get "pledged_qty" doc = Some (VInt p) ->
  dict_get "participants" doc = Some (VList ps) ->
  let c := run_sched r1 r2 [true; true; false; false; true]
             {| store := s; pc1 := AtLookup; pc2 := AtLookup |} in
  exists x,
    pc1 c = Done (Return x)
    /\ dict_get "pledged_qty" x = Some (VInt (p + r_qty r1 + r_qty r2))
    /\ dict_get "participants" x = Some (VList (ps ++ [entry r1; entry r2])).
Proof.
  intros Hoc1 Hoc2 Hf Hp Hps.
  destruct (find_one_index _ _ _ Hf) as (i & Hi & Hl & Hm).
  pose proof (find_one_has_id _ _ _ Hf) as Hid.
  set (d1 := pledged_doc doc p ps (r_qty r1) (r_name r1) (r_email r1)).
  set (s1 := <["sharedorder" := <[i := d1]> (coll s "sharedorder")]> s).
  set (d2 := pledged_doc d1 (p + r_qty r1) (ps ++ [entry r1])
               (r_qty r2) (r_name r2) (r_email r2)).
  set (s2 := <["sharedorder" := <[i := d2]> (coll s1 "sharedorder")]> s1).
  assert (dict_get "_id" d1 = Some id) as Hid1.
  { unfold d1. by rewrite pledged_doc_other. }
  assert (dict_get "_id" d2 = Some id) as Hid2.
  { unfold d2. by rewrite pledged_doc_other. }
  assert (find_index (coll s1 "sharedorder") [("_id", id)] = Some i) as Hi1.
  { unfold s1. rewrite coll_insert. apply find_index_insert; [done|].
    by apply matches_id. }
  assert (coll s1 "sharedorder" !! i = Some d1) as Hl1.
  { unfold s1. rewrite coll_insert. apply list_lookup_insert_eq.
    by apply lookup_lt_Some with doc. }
  assert (find_one (coll s2 "sharedorder") [("_id", id)] = Some d2) as Hf2.
  { unfold s2. rewrite coll_insert. apply find_one_insert; [done|].
    by apply matches_id. }
  intros c. subst c. cbn [run_sched].
  unfold sched_step at 5. cbn [pc1 pc2 store].
  rewrite (handler_step_lookup r1 s id doc Hoc1 Hf).
  unfold sched_step at 4. cbn [pc1 pc2 store].
  rewrite (handler_step_update r1 s id doc i doc p ps Hid Hi Hl Hp Hps).
  fold d1. fold s1.
  unfold sched_step at 3. cbn [pc1 pc2 store].
  rewrite (handler_step_lookup r2 s1 id d1 Hoc2
             (find_one_of_index _ _ _ _ Hi1 Hl1)).
  unfold sched_step at 2. cbn [pc1 pc2 store].
  rewrite (handler_step_update r2 s1 id d1 i d1 (p + r_qty r1) (ps ++ [entry r1])
             Hid1 Hi1 Hl1 (pledged_doc_pledged_qty _ _ _ _ _ _)
             (pledged_doc_participants _ _ _ _ _ _)).
  fold d2. fold s2.
  unfold sched_step. cbn [pc1 pc2 store].
  rewrite (handler_step_reread r1 s2 id doc d2 Hid Hf2).
  cbn [pc1]. eexists. split; [reflexivity|].
  rewrite !expose_id_other by done. unfold d2.
  rewrite pledged_doc_pledged_qty, pledged_doc_participants, <- app_assoc.
  done.
Qed.

End LateRead.

(** ** The other listings *)

Lemma matches_field k v d :
  matches [(k, v)] d = true <-> dict_get k d = Some v.
Proof.
  unfold matches. simpl. rewrite andb_true_r.
  destruct (dict_get k d) as [v'|]; [|split; discriminate].
  rewrite value_eqb_eq. split; congruence.
Qed.

Lemma find_sublist c flt : sublist (find c flt) c.
Proof.
  unfold find. induction c as [|d c IH]; simpl; [constructor|].
  destruct (matches flt d); by constructor.
Qed.

Lemma elem_of_find c flt d : d ∈ find c flt <-> d ∈ c /\ matches flt d = true.
Proof.
  unfold find. rewrite !list_elem_of_In, filter_In. done.
Qed.

Section ListingProperties.

Variable str : value -> string.
Variable get_documents' :
  string -> document -> option database -> result (list document) * option database.

Local Abbreviation expose_id := (expose_id str).
Local Abbreviation items_response := (items_response str).
Local Abbreviation list_suppliers := (list_suppliers str get_documents').
Local Abbreviation list_products := (list_products str get_documents').

(** Every item of a listing is its document with [id] set to the string of
    [_id], without [_id], the other fields as they were. *)
Lemma items_response_items docs :
  exists items,
    items_response docs = VDict [("items", VList items)]
    /\ length items = length docs
    /\ forall i d, docs !! i = Some d ->
         exists it,
           items !! i = Some (VDict it)
           /\ dict_get "id" it
              = Some (VStr (str (default (VStr "") (dict_get "_id" d))))
           /\ dict_get "_id" it = None
           /\ forall k, k <> "id" -> k <> "_id" -> dict_get k it = dict_get k d.
Proof.
  eexists. split; [reflexivity|]. split; [apply length_fmap|].
  intros i d Hd. exists (expose_id d). split.
  { by rewrite list_lookup_fmap, Hd. }
  split; [apply expose_id_id|]. split; [apply expose_id_no_internal|].
  intros k H1 H2. by apply expose_id_other.
Qed.

(** X7: [list_suppliers] and [list_products] treat an empty query
    parameter like an absent one; when every parameter is absent or empty
    the store is asked with the empty filter. *)
Theorem listings_ignore_blank_parameters q category supplier tag db :
  list_suppliers q tag db
  = list_suppliers (blank_as_absent q) (blank_as_absent tag) db
  /\ list_products q category supplier db
     = list_products (blank_as_absent q) (blank_as_absent category)
         (blank_as_absent supplier) db
  /\ (given q = false -> given tag = false ->
      list_suppliers q tag db = list_suppliers None None db
      /\ suppliers_filter q tag = [])
  /\ (given q = false -> given category = false -> given supplier = false ->
      list_products q category supplier db = list_products None None None db
      /\ products_filter q category supplier = []).
Proof.
  repeat split.
  - by destruct q as [[]|], tag as [[]|].
  - by destruct q as [[]|], category as [[]|], supplier as [[]|].
  - by destruct q as [[]|], tag as [[]|].
  - by destruct q as [[]|], tag as [[]|].
  - by destruct q as [[]|], category as [[]|], supplier as [[]|].
  - by destruct q as [[]|], category as [[]|], supplier as [[]|].
Qed.

(** X8: a [list_suppliers] that returns gives one item per document
    [get_documents] returned, in order, each with [id] set to the string of
    its [_id], without [_id], the other fields as they were; a non-empty
    [q] reaches the store as the condition
    [{"$regex": q, "$options": "i"}] on [name] and a non-empty [tag] as the
    condition [tag] on [tags]; a parameter that is absent or empty puts no
    condition on its field. *)
Theorem list_suppliers_items q tag db v db' :
  list_suppliers q tag db = (Return v, db') ->
  exists docs items,
    get_documents' "supplier" (suppliers_filter q tag) db = (Return docs, db')
    /\ v = VDict [("items", VList items)]
    /\ length items = length docs
    /\ (forall i d, docs !! i = Some d ->
          exists it,
            items !! i = Some (VDict it)
            /\ dict_get "id" it
               = Some (VStr (str (default (VStr "") (dict_get "_id" d))))
            /\ dict_get "_id" it = None
            /\ forall k, k <> "id" -> k <> "_id" -> dict_get k it = dict_get k d)
    /\ (forall q', q = Some q' -> q' <> "" ->
          dict_get "name" (suppliers_filter q tag)
          = Some (VDict [("$regex", VStr q'); ("$options", VStr "i")]))
    /\ (forall t, tag = Some t -> t <> "" ->
          dict_get "tags" (suppliers_filter q tag) = Some (VStr t))
    /\ (given q = false -> dict_get "name" (suppliers_filter q tag) = None)
    /\ (given tag = false -> dict_get "tags" (suppliers_filter q tag) = None).
Proof.
  unfold list_suppliers.
  destruct (get_documents' "supplier" _ db) as [[docs|e] db1] eqn:E;
    [|discriminate].
  intros [= <- <-].
  destruct (items_response_items docs) as (items & Hresp & Hlen & Hitems).
  exists docs, items. repeat split; try done.
  - intros q' -> Hq'. destruct q' as [|a q']; [done|].
    by destruct tag as [[]|].
  - intros t -> Ht. destruct t as [|a t]; [done|].
    by destruct q as [[]|].
  - by destruct q as [[]|], tag as [[]|].
  - by destruct q as [[]|], tag as [[]|].
Qed.

(** X9: a [list_products] that returns gives one item per document
    [get_documents] returned, in order, each with [id] set to the string of
    its [_id], without [_id], the other fields as they were; a non-empty
    [q] reaches the store as a case-insensitive [$regex] on [title], a
    non-empty [category] and [supplier] as conditions on [category] and
    [supplier_id]. *)
Theorem list_products_items q category supplier db v db' :
  list_products q category supplier db = (Return v, db') ->
  exists docs items,
    get_documents' "product" (products_filter q category supplier) db
    = (Return docs, db')
    /\ v = VDict [("items", VList items)]
    /\ length items = length docs
    /\ (forall i d, docs !! i = Some d ->
          exists it,
            items !! i = Some (VDict it)
            /\ dict_get "id" it
               = Some (VStr (str (default (VStr "") (dict_get "_id" d))))
            /\ dict_get "_id" it = None
            /\ forall k, k <> "id" -> k <> "_id" -> dict_get k it = dict_get k d)
    /\ (forall q', q = Some q' -> q' <> "" ->
          dict_get "title" (products_filter q category supplier)
          = Some (regex_i q'))
    /\ (forall c, category = Some c -> c <> "" ->
          dict_get "category" (products_filter q category supplier)
          = Some (VStr c))
    /\ (forall s, supplier = Some s -> s <> "" ->
          dict_get "supplier_id" (products_filter q category supplier)
          = Some (VStr s)).
Proof.
  unfold list_products.
  destruct (get_documents' "product" _ db) as [[docs|e] db1] eqn:E;
    [|discriminate].
  intros [= <- <-].
  destruct (items_response_items docs) as (items & Hresp & Hlen & Hitems).
  exists docs, items. repeat split; try done.
  - intros q' -> Hq'. destruct q' as [|a q']; [done|].
    by destruct category as [[]|], supplier as [[]|].
  - intros c -> Hc. destruct c as [|a c]; [done|].
    by destruct q as [[]|], supplier as [[]|].
  - intros s -> Hs. destruct s as [|a s]; [done|].
    by destruct q as [[]|], category as [[]|].
Qed.

End ListingProperties.

(** X10: with [get_documents] as the spec has it, [products_by_supplier]
    returns the stored products whose [supplier_id] is the one asked for,
    all of them and no other, in the order of the store, each without
    [_id]; the store is not changed. *)
Theorem products_by_supplier_exact (str : value -> string) supplier_id s :
  exists docs,
    products_by_supplier str get_documents_read supplier_id (Some s)
    = (Return (VDict [("items",
                       VList ((fun d => VDict (expose_id str d)) <$> docs))]),
       Some s)
    /\ sublist docs (coll s "product")
    /\ (forall d, d ∈ docs <->
                  d ∈ coll s "product"
                  /\ dict_get "supplier_id" d = Some (VStr supplier_id))
    /\ (forall d, d ∈ docs ->
          dict_get "supplier_id" (expose_id str d) = Some (VStr supplier_id)
          /\ dict_get "_id" (expose_id str d) = None).
Proof.
  exists (find (coll s "product") [("supplier_id", VStr supplier_id)]).
  split; [reflexivity|]. split; [apply find_sublist|]. split.
  - intros d. rewrite elem_of_find, matches_field. done.
  - intros d Hd. apply elem_of_find in Hd as [_ Hm]. apply matches_field in Hm.
    split; [|apply expose_id_no_internal].
    by rewrite expose_id_other.
Qed.

(** ** Seeding the shared orders *)

Section SeedingProperties.

Variable str : value -> string.
Variable create_document : string -> document -> M string.

Local Abbreviation demo_shared_orders := (demo_shared_orders str).
Local Abbreviation seed_shared_orders := (seed_shared_orders str create_document).

Lemma demo_shared_orders_short prod_docs now :
  (length prod_docs < 2)%nat ->
  exists e, demo_shared_orders prod_docs now = Raise e.
Proof.
  intros Hlen. destruct prod_docs as [|p0 [|p1 l]]; simpl in Hlen; try lia.
  - by eexists.
  - unfold demo_shared_orders. simpl.
    destruct (getitem p0 "_id"); simpl; [|by eexists].
    destruct (getitem p0 "supplier_id"); simpl; [|by eexists].
    destruct (getitem p0 "min_order_qty"); simpl; by eexists.
Qed.

(** X11: the seeding of the shared orders does nothing, and reports
    nothing, when a shared order is already stored and when fewer than two
    products are: [create_document] is not reached and the store is as it
    was. *)
Theorem seed_shared_orders_skipped now s :
  coll s "sharedorder" <> [] \/ (length (coll s "product") < 2)%nat ->
  seed_shared_orders now s = (Return tt, s).
Proof.
  intros H. unfold seed_shared_orders, try_except.
  rewrite !find_nil_filter.
  destruct (coll s "sharedorder") as [|d c] eqn:Ec; simpl; [|done].
  destruct H as [H|H]; [done|].
  destruct (demo_shared_orders_short (take 3 (coll s "product")) now)
    as [e He].
  { rewrite length_take. lia. }
  unfold bind, lift. by rewrite He.
Qed.

(** X12: from two products that carry an [_id], a [supplier_id] string
    and a [min_order_qty] of at least 1, the seeding builds two shared
    orders that validate against the [SharedOrder] schema and have
    [pledged_qty] equal to the sum of their participants' [qty] (140 and
    460), each for its product, its supplier and its minimum quantity. *)
Theorem demo_shared_orders_sound prod_docs now p0 p1 id0 id1 sup0 sup1 m0 m1 :
  prod_docs !! 0%nat = Some p0 ->
  prod_docs !! 1%nat = Some p1 ->
  dict_get "_id" p0 = Some id0 ->
  dict_get "_id" p1 = Some id1 ->
  dict_get "supplier_id" p0 = Some (VStr sup0) ->
  dict_get "supplier_id" p1 = Some (VStr sup1) ->
  dict_get "min_order_qty" p0 = Some (VInt m0) ->
  dict_get "min_order_qty" p1 = Some (VInt m1) ->
  1 <= m0 -> 1 <= m1 ->
  exists o0 o1,
    demo_shared_orders prod_docs now = Return [o0; o1]
    /\ sound_order o0 /\ sound_order o1
    /\ dict_get "product_id" o0 = Some (VStr (str id0))
    /\ dict_get "product_id" o1 = Some (VStr (str id1))
    /\ dict_get "supplier_id" o0 = Some (VStr sup0)
    /\ dict_get "supplier_id" o1 = Some (VStr sup1)
    /\ dict_get "min_qty" o0 = Some (VInt m0)
    /\ dict_get "min_qty" o1 = Some (VInt m1)
    /\ dict_get "pledged_qty" o0 = Some (VInt 140)
    /\ dict_get "pledged_qty" o1 = Some (VInt 460).
Proof.
  intros H0 H1 Hid0 Hid1 Hs0 Hs1 Hm0 Hm1 Hge0 Hge1.
  unfold demo_shared_orders, list_getitem, getitem, rbind.
  rewrite H0, Hid0, Hs0, Hm0, H1, Hid1, Hs1, Hm1.
  eexists _, _. split; [reflexivity|].
  assert (forall m, 1 <= m -> (1 <=? m) = true) as Hleb
    by (intros; apply Z.leb_le; lia).
  repeat split; try reflexivity.
  - unfold is_SharedOrder. simpl. by rewrite (Hleb _ Hge0).
  - exists 140. eexists. repeat split; reflexivity.
  - unfold is_SharedOrder. simpl. by rewrite (Hleb _ Hge1).
  - exists 460. eexists. repeat split; reflexivity.
Qed.

End SeedingProperties.

(** ** A pledge, then the listing *)

(** X13: after a pledge that returns, the listing of the shared orders
    has the response of the pledge among its items, at the position of the
    order in the collection. *)
Theorem pledge_then_list
    (objectid_class ObjectId : string -> result value) (str : value -> string)
    s order_id qty name email r db' :
  pledge_to_shared_order objectid_class ObjectId str (Some s) order_id qty
    name email = (Return r, db') ->
  exists i doc items,
    coll s "sharedorder" !! i = Some doc
    /\ dict_get "id" r = Some (VStr (str (default (VStr "") (dict_get "_id" doc))))
    /\ list_shared_orders str db'
       = (Return (VDict [("items", VList items)]), db')
    /\ items !! i = Some (VDict r)
    /\ length items = length (coll s "sharedorder").
Proof.
  intros H. apply pledge_returns in H
    as (doc & id & i & p & ps & Hr & Hid & Hi & Hl & Hp & Hps & -> & ->).
  exists i, doc. eexists. split; [done|]. split.
  { rewrite expose_id_id, pledged_doc_other by done. done. }
  split; [reflexivity|]. rewrite find_nil_filter, coll_insert.
  split.
  - rewrite list_lookup_fmap, list_lookup_insert_eq; [done|].
    by apply lookup_lt_Some with doc.
  - by rewrite length_fmap, length_insert.
Qed.

(** ** The further properties on the demo data *)

Lemma pledges_keep_orders_sound_witness :
  Forall sound_order (coll Demo.seeded "sharedorder")
  /\ exists s',
       snd (run_pledges Demo.ObjectId Demo.ObjectId Demo.str (Some Demo.seeded)
              Demo.three_calls) = Some s'
       /\ Forall sound_order (coll s' "sharedorder").
Proof.
  assert (Forall sound_order (coll Demo.seeded "sharedorder")) as H.
  { repeat constructor; try reflexivity.
    - exists 140. eexists. repeat split; reflexivity.
    - exists 460. eexists. repeat split; reflexivity. }
  split; [exact H|].
  exact (pledges_keep_orders_sound Demo.ObjectId Demo.ObjectId Demo.str
           Demo.seeded Demo.three_calls H).
Defined.

Lemma pledge_error_writes_nothing_witness :
  snd (post_pledge Demo.ObjectId Demo.ObjectId Demo.str (Some Demo.seeded)
         "65a0000000000000000000ff" (Demo.query 5 None None))
  = Some Demo.seeded.
Proof.
  eassert (post_pledge Demo.ObjectId Demo.ObjectId Demo.str (Some Demo.seeded)
             "65a0000000000000000000ff" (Demo.query 5 None None)
           = (Raise _, _)) as E by reflexivity.
  rewrite E. simpl.
  exact (pledge_error_writes_nothing _ _ _ _ _ _ _ _ E).
Defined.

Lemma pledges_append_in_order_witness :
  exists s' d,
    snd (run_pledges Demo.ObjectId Demo.ObjectId Demo.str
           (Some Demo.with_new_order) Demo.two_calls) = Some s'
    /\ find_one (coll s' "sharedorder") [("_id", VOid Demo.id_3)] = Some d
    /\ dict_get "participants" d
       = Some (VList [participant "A" None 10;
                      participant "Guest" (Some "b@example.com") 20])
    /\ dict_get "pledged_qty" d = Some (VInt 30).
Proof.
  destruct (pledges_append_in_order Demo.ObjectId Demo.ObjectId Demo.str
              Demo.with_new_order Demo.two_calls (VOid Demo.id_3) Demo.order_3
              0 [] eq_refl eq_refl eq_refl)
    as (s' & d & t & Hrun & Hf & Hps & Hsum & Hp & _).
  exists s', d. split; [exact Hrun|]. split; [exact Hf|].
  split; [exact Hps|].
  vm_compute in Hsum. injection Hsum as <-. exact Hp.
Defined.

Lemma pledges_on_distinct_orders_commute_witness :
  let '(ra, s1) := pledge_to_shared_order Demo.ObjectId Demo.ObjectId Demo.str
                     (Some Demo.seeded) "65a000000000000000000021" 7 "A" None in
  let '(rb, s2) := pledge_to_shared_order Demo.ObjectId Demo.ObjectId Demo.str
                     s1 Demo.id_2 50 "B" None in
  let '(rb', t1) := pledge_to_shared_order Demo.ObjectId Demo.ObjectId Demo.str
                      (Some Demo.seeded) Demo.id_2 50 "B" None in
  let '(ra', t2) := pledge_to_shared_order Demo.ObjectId Demo.ObjectId Demo.str
                      t1 "65a000000000000000000021" 7 "A" None in
  ra = ra' /\ rb = rb' /\ s2 = t2.
Proof.
  assert (resolves Demo.ObjectId Demo.ObjectId Demo.seeded
            "65a000000000000000000021" Demo.order_1) as Ha
    by (vm_compute; reflexivity).
  assert (resolves Demo.ObjectId Demo.ObjectId Demo.seeded Demo.id_2
            Demo.order_2) as Hb by (vm_compute; reflexivity).
  assert (dict_get "_id" Demo.order_1 <> dict_get "_id" Demo.order_2) as Hne
    by (vm_compute; discriminate).
  exact (pledges_on_distinct_orders_commute Demo.ObjectId Demo.ObjectId Demo.str
           Demo.seeded "65a000000000000000000021" 7 "A" None
           Demo.id_2 50 "B" None Demo.order_1 Demo.order_2 Ha Hb Hne).
Defined.

Lemma late_read_back_shows_both_pledges_witness :
  let c := run_sched Demo.ObjectId Demo.ObjectId Demo.str
             Demo.request_10 Demo.request_20 [true; true; false; false; true]
             {| store := Demo.with_new_order; pc1 := AtLookup; pc2 := AtLookup |} in
  exists x,
    pc1 c = Done (Return x)
    /\ dict_get "pledged_qty" x = Some (VInt 30).
Proof.
  intros c.
  destruct (late_read_back_shows_both_pledges Demo.ObjectId Demo.ObjectId
              Demo.str Demo.with_new_order Demo.request_10 Demo.request_20
              Demo.order_3 (VOid Demo.id_3) 0 [] eq_refl eq_refl eq_refl
              eq_refl eq_refl)
    as (x & Hpc & Hp & _).
  exists x. split; [exact Hpc|exact Hp].
Defined.

Lemma list_suppliers_items_witness :
  exists v db' items it,
    list_suppliers Demo.str Demo.get_documents_store (Some "nova")
      (Some "electronics") (Some Demo.suppliers) = (Return v, db')
    /\ v = VDict [("items", VList items)]
    /\ length items = 1%nat
    /\ items !! 0%nat = Some (VDict it)
    /\ dict_get "id" it = Some (VStr "65a000000000000000000001")
    /\ dict_get "_id" it = None
    /\ dict_get "name" it = Some (VStr "NovaFab Industries")
    /\ dict_get "name" (suppliers_filter (Some "nova") (Some "electronics"))
       = Some (VDict [("$regex", VStr "nova"); ("$options", VStr "i")])
    /\ dict_get "tags" (suppliers_filter (Some "nova") (Some "electronics"))
       = Some (VStr "electronics").
Proof.
  eassert (list_suppliers Demo.str Demo.get_documents_store (Some "nova")
             (Some "electronics") (Some Demo.suppliers) = (Return _, _)) as E
    by reflexivity.
  destruct (list_suppliers_items _ _ _ _ _ _ _ E)
    as (docs & items & Hget & Hv & Hlen & Hitems & Hq & Ht & _).
  assert (docs = [Demo.supplier_1]) as Hdocs.
  { vm_compute in Hget. by injection Hget as <-. }
  destruct (Hitems 0%nat Demo.supplier_1) as (it & Hit & Hid & Hnoid & Hother).
  { by rewrite Hdocs. }
  eexists _, _, items, it. split; [exact E|]. split; [exact Hv|].
  split. { by rewrite Hlen, Hdocs. }
  split; [exact Hit|]. split; [exact Hid|]. split; [exact Hnoid|].
  split. { rewrite Hother by done. reflexivity. }
  split; [by apply Hq|by apply Ht].
Defined.

Lemma list_products_items_witness :
  exists v db' items,
    list_products Demo.str get_documents_read None (Some "Apparel") None
      (Some Demo.catalogue) = (Return v, db')
    /\ v = VDict [("items", VList items)]
    /\ length items = 1%nat.
Proof.
  eassert (list_products Demo.str get_documents_read None (Some "Apparel") None
             (Some Demo.catalogue) = (Return _, _)) as E by reflexivity.
  destruct (list_products_items _ _ _ _ _ _ _ _ E)
    as (docs & items & Hget & Hv & Hlen & _).
  eexists _, _, items. split; [exact E|]. split; [exact Hv|].
  rewrite Hlen. vm_compute in Hget. by injection Hget as <-.
Defined.

Lemma seed_shared_orders_skipped_witness :
  (length (coll Demo.one_product "product") < 2)%nat
  /\ seed_shared_orders Demo.str Demo.append_document 1700000000
       Demo.one_product = (Return tt, Demo.one_product).
Proof.
  assert (length (coll Demo.one_product "product") < 2)%nat as H
    by (vm_compute; lia).
  split; [exact H|].
  exact (seed_shared_orders_skipped Demo.str Demo.append_document 1700000000
           Demo.one_product (or_intror H)).
Defined.

Lemma demo_shared_orders_sound_witness :
  exists o0 o1,
    demo_shared_orders Demo.str [Demo.product_1; Demo.product_2] 1700000000
    = Return [o0; o1]
    /\ sound_order o0 /\ sound_order o1
    /\ dict_get "min_qty" o1 = Some (VInt 500).
Proof.
  destruct (demo_shared_orders_sound Demo.str
              [Demo.product_1; Demo.product_2] 1700000000
              Demo.product_1 Demo.product_2
              (VOid "65a000000000000000000011") (VOid "65a000000000000000000012")
              "65a000000000000000000001" "65a000000000000000000002" 200 500
              eq_refl eq_refl eq_refl eq_refl eq_refl eq_refl eq_refl eq_refl
              ltac:(lia) ltac:(lia))
    as (o0 & o1 & Hrun & Hs0 & Hs1 & _ & _ & _ & _ & _ & Hm1 & _).
  exists o0, o1. repeat split; try assumption; apply Hs0 || apply Hs1.
Defined.

Lemma pledge_then_list_witness :
  exists r db' i items,
    pledge_to_shared_order Demo.ObjectId Demo.ObjectId Demo.str
      (Some Demo.seeded) Demo.id_2 50 "NewBuyer" None = (Return r, db')
    /\ list_shared_orders Demo.str db'
       = (Return (VDict [("items", VList items)]), db')
    /\ items !! i = Some (VDict r).
Proof.
  eassert (pledge_to_shared_order Demo.ObjectId Demo.ObjectId Demo.str
             (Some Demo.seeded) Demo.id_2 50 "NewBuyer" None = (Return _, _)) as E
    by reflexivity.
  destruct (pledge_then_list _ _ _ _ _ _ _ _ _ _ E)
    as (i & doc & items & _ & _ & Hlist & Hitem & _).
  eexists _, _, i, items. split; [exact E|]. split; [exact Hlist|exact Hitem].
Defined.

Lemma pledge_unresolved_witness :
  pledge_to_shared_order Demo.ObjectId Demo.ObjectId Demo.str (Some Demo.seeded)
    "65a0000000000000000000ff" 5 "Guest" None
  = (Raise (HTTPException 404 "Shared order not found"), Some Demo.seeded).
Proof.
  assert (forall doc,
             ~ resolves Demo.ObjectId Demo.ObjectId Demo.seeded
                 "65a0000000000000000000ff" doc) as H.
  { intros doc Hd. vm_compute in Hd. discriminate. }
  exact (pledge_unresolved Demo.ObjectId Demo.ObjectId Demo.str Demo.seeded
           "65a0000000000000000000ff" 5 "Guest" None H).
Defined.

Lemma interleaved_pledges_never_torn_witness :
  let c := run_sched Demo.ObjectId Demo.ObjectId Demo.str
             Demo.request_10 Demo.request_20 [true; true; false]
             {| store := Demo.with_new_order; pc1 := AtLookup; pc2 := AtLookup |} in
  exists d l t,
    find_one (coll (store c) "sharedorder") [("_id", VOid Demo.id_3)] = Some d
    /\ dict_get "participants" d = Some (VList ([] ++ l))
    /\ sum_qty l = Some t
    /\ dict_get "pledged_qty" d = Some (VInt (0 + t)).
Proof.
  assert (resolves Demo.ObjectId Demo.ObjectId Demo.with_new_order Demo.id_3
            Demo.order_3) as H1 by (vm_compute; reflexivity).
  exact (interleaved_pledges_never_torn Demo.ObjectId Demo.ObjectId Demo.str
           Demo.with_new_order Demo.order_3 (VOid Demo.id_3) eq_refl
           Demo.request_10 Demo.request_20 0 [] H1 H1 eq_refl eq_refl
           [true; true; false]).
Defined.

(** ** Orders since their creation *)

(** An order as the code creates it has [pledged_qty] equal to the sum of
    its participants' [qty]. *)
Lemma created_with_ledger str d0 n :
  created_with str d0 n ->
  exists p ps,
    dict_get "pledged_qty" d0 = Some (VInt p)
    /\ dict_get "participants" d0 = Some (VList ps)
    /\ sum_qty ps = Some p
    /\ length ps = n.
Proof.
  intros [(Hp & Hps & ->) | (prod_docs & now & orders & o & Hd & Ho & Hk & ->)].
  - by exists 0, [].
  - rewrite (Hk "pledged_qty"), (Hk "participants") by done.
    unfold demo_shared_orders, rbind in Hd.
    destruct (list_getitem prod_docs 0) as [p0|]; [|discriminate].
    destruct (getitem p0 "_id") as [id0|]; [|discriminate].
    destruct (getitem p0 "supplier_id") as [sup0|]; [|discriminate].
    destruct (getitem p0 "min_order_qty") as [moq0|]; [|discriminate].
    destruct (list_getitem prod_docs 1) as [p1|]; [|discriminate].
    destruct (getitem p1 "_id") as [id1|]; [|discriminate].
    destruct (getitem p1 "supplier_id") as [sup1|]; [|discriminate].
    destruct (getitem p1 "min_order_qty") as [moq1|]; [|discriminate].
    injection Hd as <-.
    apply elem_of_cons in Ho as [-> | Ho];
      [|apply elem_of_cons in Ho as [-> | Ho]; [|by apply elem_of_nil in Ho]].
    + exists 140. eexists. repeat split; reflexivity.
    + exists 460. eexists. repeat split; reflexivity.
Qed.

Section SinceCreation.

Variable objectid_class : string -> result value.
Variable ObjectId : string -> result value.
Variable str : value -> string.

Local Abbreviation run_pledges := (run_pledges objectid_class ObjectId str).
Local Abbreviation successful_pledges :=
  (successful_pledges objectid_class ObjectId str).

(** C1: on an order as the code created it, with the defaults of the
    schema or by the seeding of [ensure_demo_data], after any sequence of
    pledge requests (so after every successful pledge) the order's
    [pledged_qty] equals the sum of the [qty] of all entries of its
    [participants], and the length of [participants] is the number of
    entries the order was created with, none with the schema's defaults
    and two for a seeded order, plus the number of successful pledges on
    the order since: each successful pledge appends exactly one entry. *)
Theorem pledges_since_creation s calls id d0 n :
  find_one (coll s "sharedorder") [("_id", id)] = Some d0 ->
  created_with str d0 n ->
  exists s' d p' ps',
    snd (run_pledges (Some s) calls) = Some s'
    /\ find_one (coll s' "sharedorder") [("_id", id)] = Some d
    /\ dict_get "pledged_qty" d = Some (VInt p')
    /\ dict_get "participants" d = Some (VList ps')
    /\ sum_qty ps' = Some p'
    /\ length ps' = (n + successful_pledges id (Some s) calls)%nat.
Proof.
  intros Hf Hc.
  destruct (created_with_ledger _ _ _ Hc) as (p & ps & Hp & Hps & Hsum & <-).
  destruct (pledges_keep_ledger_consistent objectid_class ObjectId str
              s calls id d0 p ps Hf Hp Hps)
    as (s' & d & p' & ps' & Hrun & Hf' & Hp' & Hps' & Hlen & _ & Hcons).
  destruct Hcons as (p2 & ps2 & Hp2 & Hps2 & Hsum2).
  { by exists p, ps. }
  exists s', d, p', ps'. repeat split; try done.
  congruence.
Qed.

End SinceCreation.

(** The second seeded order of the demo store is the second order
    [ensure_demo_data] builds, under the identifier the store gave it. *)
Lemma order_2_created : created_with Demo.str Demo.order_2 2.
Proof.
  right. exists [Demo.product_1; Demo.product_2], 1700000400.
  eexists _, _. split; [reflexivity|].
  split; [apply elem_of_cons; right; apply elem_of_cons; by left|].
  split; [|reflexivity].
  intros k Hk. unfold Demo.order_2. cbn [dict_get].
  destruct (String.eqb_spec "_id" k) as [<-|_]; [done|reflexivity].
Qed.

Lemma pledges_since_creation_witness :
  find_one (coll Demo.seeded "sharedorder") [("_id", VOid Demo.id_2)]
  = Some Demo.order_2
  /\ created_with Demo.str Demo.order_2 2
  /\ exists s' d p' ps',
       snd (run_pledges Demo.ObjectId Demo.ObjectId Demo.str (Some Demo.seeded)
              Demo.three_calls) = Some s'
       /\ find_one (coll s' "sharedorder") [("_id", VOid Demo.id_2)] = Some d
       /\ dict_get "pledged_qty" d = Some (VInt p')
       /\ dict_get "participants" d = Some (VList ps')
       /\ sum_qty ps' = Some p'
       /\ length ps'
          = (2 + successful_pledges Demo.ObjectId Demo.ObjectId Demo.str
                   (VOid Demo.id_2) (Some Demo.seeded) Demo.three_calls)%nat.
Proof.
  split; [reflexivity|]. split; [exact order_2_created|].
  exact (pledges_since_creation Demo.ObjectId Demo.ObjectId Demo.str
           Demo.seeded Demo.three_calls (VOid Demo.id_2) Demo.order_2 2
           eq_refl order_2_created).
Defined.

(** The claim C1 as worded fails on an order the code itself creates. The
    second order [ensure_demo_data] seeds is created with two participants,
    so after one pledge request on it the length of [participants] is two
    more than the number of successful pledges, whatever the conversion
    of line 225 does with the order id: with the driver's default document
    class the request is answered with an error and the order has two
    participants for no successful pledge, with [bson.ObjectId] it has
    three for one. *)
Lemma seeded_order_has_more_participants_than_pledges :
  let calls := [ {| c_order_id := Demo.id_2;
                    c_query := Demo.query 50 (Some "NewBuyer") None |} ] in
  find_one (coll Demo.seeded "sharedorder") [("_id", VOid Demo.id_2)]
  = Some Demo.order_2
  /\ created_with Demo.str Demo.order_2 2
  /\ (forall objectid_class ObjectId str,
        exists s' d ps,
          snd (run_pledges objectid_class ObjectId str (Some Demo.seeded) calls)
          = Some s'
          /\ find_one (coll s' "sharedorder") [("_id", VOid Demo.id_2)] = Some d
          /\ dict_get "participants" d = Some (VList ps)
          /\ length ps
             = (2 + successful_pledges objectid_class ObjectId str
                      (VOid Demo.id_2) (Some Demo.seeded) calls)%nat
          /\ length ps
             <> successful_pledges objectid_class ObjectId str
                  (VOid Demo.id_2) (Some Demo.seeded) calls)
  /\ (exists s' d ps,
        run_pledges Demo.objectid_class_default Demo.ObjectId Demo.str
          (Some Demo.seeded) calls
        = ([Raise (PyError "AttributeError")], Some s')
        /\ find_one (coll s' "sharedorder") [("_id", VOid Demo.id_2)] = Some d
        /\ dict_get "participants" d = Some (VList ps)
        /\ length ps = 2%nat
        /\ successful_pledges Demo.objectid_class_default Demo.ObjectId Demo.str
             (VOid Demo.id_2) (Some Demo.seeded) calls = 0%nat)
  /\ (exists s' d ps r,
        run_pledges Demo.ObjectId Demo.ObjectId Demo.str (Some Demo.seeded) calls
        = ([Return r], Some s')
        /\ find_one (coll s' "sharedorder") [("_id", VOid Demo.id_2)] = Some d
        /\ dict_get "participants" d = Some (VList ps)
        /\ length ps = 3%nat
        /\ successful_pledges Demo.ObjectId Demo.ObjectId Demo.str
             (VOid Demo.id_2) (Some Demo.seeded) calls = 1%nat).
Proof.
  intros calls. split; [reflexivity|]. split; [exact order_2_created|].
  split; [|split].
  - intros objectid_class ObjectId str.
    destruct (pledges_keep_ledger_consistent objectid_class ObjectId str
                Demo.seeded calls (VOid Demo.id_2) Demo.order_2 460
                [VDict [("name", VStr "Gym Chain"); ("email", VStr "gym@example.com");
                        ("qty", VInt 300)];
                 VDict [("name", VStr "Boutique"); ("email", VStr "fashion@example.com");
                        ("qty", VInt 160)]]
                eq_refl eq_refl eq_refl)
      as (s' & d & p' & ps' & Hrun & Hf & _ & Hps & Hlen & _).
    exists s', d, ps'. split; [exact Hrun|]. split; [exact Hf|].
    split; [exact Hps|]. split; [exact Hlen|].
    rewrite Hlen. simpl. lia.
  - eexists _, _, _. split; [reflexivity|]. split; [reflexivity|].
    split; [reflexivity|]. split; reflexivity.
  - eexists _, _, _, _. split; [reflexivity|]. split; [reflexivity|].
    split; [reflexivity|]. split; reflexivity.
Qed.

(** ** The look-up with the driver's default document class *)

Section DefaultDocumentClass.

Variable ObjectId : string -> result value.
Variable str : value -> string.

(** With the driver's default document class, the conversion of line 225
    raises before the store is asked, whatever the order id. *)
Lemma primary_lookup_default order_id s :
  primary_lookup Demo.objectid_class_default order_id s
  = (Raise (PyError "AttributeError"), s).
Proof. reflexivity. Qed.

Lemma pledge_default s order_id qty name email :
  pledge_to_shared_order Demo.objectid_class_default ObjectId str
    (Some s) order_id qty name email
  = (Raise (PyError "AttributeError"), Some s).
Proof. reflexivity. Qed.

Lemma handler_step_default r p s :
  p = AtLookup \/ p = Done (Raise (PyError "AttributeError")) ->
  handler_step Demo.objectid_class_default ObjectId str r p s
  = (Done (Raise (PyError "AttributeError")), s).
Proof. by intros [-> | ->]. Qed.

Lemma run_sched_default r1 r2 sched : forall c,
  pc1 c = AtLookup \/ pc1 c = Done (Raise (PyError "AttributeError")) ->
  pc2 c = AtLookup \/ pc2 c = Done (Raise (PyError "AttributeError")) ->
  let c' := run_sched Demo.objectid_class_default ObjectId str r1 r2 sched c in
  store c' = store c
  /\ pc1 c' = (if (turns true sched =? 0)%nat then pc1 c
               else Done (Raise (PyError "AttributeError")))
  /\ pc2 c' = (if (turns false sched =? 0)%nat then pc2 c
               else Done (Raise (PyError "AttributeError"))).
Proof.
  induction sched as [|b sched IH]; intros c H1 H2; [done|].
  cbn [run_sched turns]. destruct b; unfold sched_step.
  - rewrite (handler_step_default r1 _ (store c) H1).
    edestruct (IH {| store := store c;
                     pc1 := Done (Raise (PyError "AttributeError"));
                     pc2 := pc2 c |}) as (Hs & Hp1 & Hp2);
      [by right|exact H2|].
    cbn [store pc1 pc2] in *. rewrite Hs, Hp1, Hp2.
    split; [done|]. split; [|done].
    cbn [Bool.eqb Nat.add Nat.eqb]. by destruct (turns true sched =? 0)%nat.
  - rewrite (handler_step_default r2 _ (store c) H2).
    edestruct (IH {| store := store c;
                     pc1 := pc1 c;
                     pc2 := Done (Raise (PyError "AttributeError")) |})
      as (Hs & Hp1 & Hp2); [exact H1|by right|].
    cbn [store pc1 pc2] in *. rewrite Hs, Hp1, Hp2.
    split; [done|]. split; [done|].
    cbn [Bool.eqb Nat.add Nat.eqb]. by destruct (turns false sched =? 0)%nat.
Qed.

End DefaultDocumentClass.

(** C2: a pledge on an existing order does not always succeed. The
    conversion of line 225 goes through the attribute [objectid_class] of
    the driver's document class, outside any [try]; the default document
    class has no such attribute, so with it every pledge raises before the
    store is asked and no order id resolves. On the demo data, the id of
    the second seeded order, which the fallback's [ObjectId] converts and
    under which a valid SharedOrder is stored, with [qty = 50]: the
    request is answered with a 500 and the store is as it was. *)
Theorem pledge_existing_order_fails_at_lookup :
  (forall ObjectId str s order_id qty name email,
      pledge_to_shared_order Demo.objectid_class_default ObjectId str
        (Some s) order_id qty name email
      = (Raise (PyError "AttributeError"), Some s))
  /\ (forall ObjectId s order_id doc,
        ~ resolves Demo.objectid_class_default ObjectId s order_id doc)
  /\ Demo.ObjectId Demo.id_2 = Return (VOid Demo.id_2)
  /\ find_one (coll Demo.seeded "sharedorder") [("_id", VOid Demo.id_2)]
     = Some Demo.order_2
  /\ is_SharedOrder Demo.order_2 = true
  /\ post_pledge Demo.objectid_class_default Demo.ObjectId Demo.str
       (Some Demo.seeded) Demo.id_2 (Demo.query 50 (Some "NewBuyer") None)
     = (Raise (PyError "AttributeError"), Some Demo.seeded)
  /\ status_of (fst (post_pledge Demo.objectid_class_default Demo.ObjectId
                       Demo.str (Some Demo.seeded) Demo.id_2
                       (Demo.query 50 (Some "NewBuyer") None))) = 500.
Proof.
  split; [intros; apply pledge_default|].
  split; [intros ObjectId s order_id doc H; discriminate H|].
  repeat split.
Qed.

(** C6: two concurrent pledges of 10 and 20 on an order with nothing
    pledged do not always leave 30 pledged. With the driver's default
    document class both handlers raise at the conversion of line 225,
    whatever the store, the requests and the schedule: the store is never
    written, and a handler that has had a turn has answered with the
    error. On the demo data, for the order stored with [pledged_qty = 0]
    and no participant: both requests are answered with a 500, and the
    order still has nothing pledged and no participant. *)
Theorem concurrent_pledges_fail_at_lookup :
  (forall ObjectId str r1 r2 s sched,
      let c := run_sched Demo.objectid_class_default ObjectId str r1 r2 sched
                 {| store := s; pc1 := AtLookup; pc2 := AtLookup |} in
      store c = s
      /\ pc1 c = (if (turns true sched =? 0)%nat then AtLookup
                  else Done (Raise (PyError "AttributeError")))
      /\ pc2 c = (if (turns false sched =? 0)%nat then AtLookup
                  else Done (Raise (PyError "AttributeError"))))
  /\ (let c := run_sched Demo.objectid_class_default Demo.ObjectId Demo.str
                 Demo.request_10 Demo.request_20 Demo.some_schedule
                 {| store := Demo.with_new_order;
                    pc1 := AtLookup; pc2 := AtLookup |} in
      r_qty Demo.request_10 = 10
      /\ r_qty Demo.request_20 = 20
      /\ r_order_id Demo.request_10 = Demo.id_3
      /\ r_order_id Demo.request_20 = Demo.id_3
      /\ Demo.ObjectId Demo.id_3 = Return (VOid Demo.id_3)
      /\ find_one (coll Demo.with_new_order "sharedorder")
           [("_id", VOid Demo.id_3)] = Some Demo.order_3
      /\ dict_get "pledged_qty" Demo.order_3 = Some (VInt 0)
      /\ pc1 c = Done (Raise (PyError "AttributeError"))
      /\ pc2 c = Done (Raise (PyError "AttributeError"))
      /\ status_of (Raise (A := document) (PyError "AttributeError")) = 500
      /\ store c = Demo.with_new_order
      /\ exists d,
           find_one (coll (store c) "sharedorder") [("_id", VOid Demo.id_3)]
           = Some d
           /\ dict_get "pledged_qty" d = Some (VInt 0)
           /\ dict_get "participants" d = Some (VList [])).
Proof.
  split.
  - intros ObjectId str r1 r2 s sched.
    apply (run_sched_default ObjectId str r1 r2 sched
             {| store := s; pc1 := AtLookup; pc2 := AtLookup |}); by left.
  - cbv zeta. do 10 (split; [reflexivity|]). split; [reflexivity|].
    eexists. split; [reflexivity|]. split; reflexivity.
Qed.
